(** * Habit-tracker backend: the progress routes

    A shallow embedding of the progress router (the file that defines
    [calculateStreaks] and the [POST /toggle] handler) and the theorems
    about the streak calculator and the completion toggle.

    Modelling conventions.
    - A JavaScript [Date] is its time value: an integer number of
      milliseconds since the epoch ([Z]).  The [date] column of a progress
      row is modelled by the time value that [new Date(row.date)] denotes;
      a date-only string "YYYY-MM-DD" (what the toggle handler writes)
      denotes UTC midnight of that day, a multiple of [MS_PER_DAY].
    - The process's time zone is a parameter [zone]: the two offset
      functions [LocalTZA(t, true)] and [LocalTZA(t, false)] of the
      language specification, with which [setHours] is written out.  A
      zone with daylight saving is such a pair; [fixedZone tz] is the zone
      of constant offset [tz] (local minus UTC, in milliseconds), and
      [fixedZone 0] is UTC.
    - The clock reading [new Date()] is the explicit parameter [now].
    - The hosted store is an explicit value: two tables, with the filter,
      order and [.single()] semantics of the query builder written out.
      A call to the store can also fail: [calculateStreaks] takes the
      client as a parameter, and the toggle handler takes a record of
      [Faults] that says which of its calls resolve to an error.
    - The clock and the stored dates are valid dates; an invalid date
      ([NaN]) is modelled where a handler can produce one and calls
      [toISOString] on it: the date of a toggle request and the start
      date of the statistics. *)

From Stdlib Require Import ZArith List Lia Permutation.
From stdpp Require Import base decidable option list numbers strings sorting.
Import ListNotations.

Local Open Scope Z_scope.

(** ** Dates *)

Module JsDate.

(** [1000 * 60 * 60 * 24] *)
Definition MS_PER_DAY : Z := 1000 * 60 * 60 * 24.

(** The time zone of the process, as the language specification has it:
    [offsetAt t] is [LocalTZA(t, true)], the offset (local minus UTC, in
    milliseconds) in force at the instant [t]; [offsetOfLocal tl] is
    [LocalTZA(tl, false)], the offset by which the local time value [tl]
    is read. *)
Record TimeZone : Type := mkTimeZone {
  offsetAt : Z -> Z;
  offsetOfLocal : Z -> Z
}.

(** [LocalTime(t)] and [UTC(t)] *)
Definition LocalTime (zone : TimeZone) (t : Z) : Z := t + offsetAt zone t.
Definition UTC (zone : TimeZone) (tl : Z) : Z := tl - offsetOfLocal zone tl.

(** [d.setHours(0, 0, 0, 0)]:
    [UTC(MakeDate(Day(LocalTime(t)), MakeTime(0, 0, 0, 0)))], the
    instant of local midnight of the local day that contains [t]. *)
Definition setHours0 (zone : TimeZone) (t : Z) : Z :=
  UTC zone (LocalTime zone t / MS_PER_DAY * MS_PER_DAY).

(** The zone of constant offset [tz]. *)
Definition fixedZone (tz : Z) : TimeZone :=
  mkTimeZone (fun _ => tz) (fun _ => tz).

(** [TimeClip]: a time value outside of +-8.64e15 ms is [NaN] ([None]),
    an invalid date. *)
Definition MAX_TIME : Z := 8640000000000000.

Definition timeClip (t : Z) : option Z :=
  if bool_decide (- MAX_TIME <= t <= MAX_TIME) then Some t else None.

(** [Math.floor((a - b) / (1000 * 60 * 60 * 24))] *)
Definition floorDays (a b : Z) : Z := (a - b) / MS_PER_DAY.

(** [d.toISOString().split('T')[0]]: the UTC calendar day of [t], as a
    day number (days since the epoch). *)
Definition isoDateString (t : Z) : Z := t / MS_PER_DAY.

(** [new Date("YYYY-MM-DD")]: UTC midnight of the day. *)
Definition ofDateString (day : Z) : Z := day * MS_PER_DAY.

End JsDate.

Import JsDate.

(** ** Promises and exceptions *)

(** The outcome of an awaited promise. *)
Inductive Promise (A : Type) : Type :=
  | Fulfilled (a : A)
  | Rejected.
Arguments Fulfilled {A} a.
Arguments Rejected {A}.

(** A computation inside a [try] block: it returns or it throws. *)
Inductive Exc (A : Type) : Type :=
  | Return (a : A)
  | Throw.
Arguments Return {A} a.
Arguments Throw {A}.

#[global] Instance Exc_bind : MBind Exc := fun A B k m =>
  match m with
  | Return a => k a
  | Throw => Throw
  end.

(** [await p]: a rejected promise throws at the [await]. *)
Definition await {A} (p : Promise A) : Exc A :=
  match p with
  | Fulfilled a => Return a
  | Rejected => Throw
  end.

(** [try { body } catch (error) { return handler }] *)
Definition try_catch {A} (body : Exc A) (handler : A) : A :=
  match body with
  | Return a => a
  | Throw => handler
  end.

(** ** The store *)

(** A row of the [progress] table. *)
Module Progress.
Record t : Type := mk {
  id : Z;
  user_id : string;
  habit_id : string;
  date : Z;
  completed : bool;
  notes : string;
  created_at : Z;
  updated_at : option Z
}.
End Progress.

(** A row of the [habits] table (the columns the progress routes use). *)
Module Habit.
Record t : Type := mk {
  id : string;
  user_id : string;
  current_streak : Z;
  longest_streak : Z;
  total_completions : Z;
  updated_at : option Z
}.
End Habit.

(** A row of [.select('date, completed')]. *)
Module Sel.
Record t : Type := mk {
  date : Z;
  completed : bool
}.
End Sel.

(** The [{ data, error }] object a query resolves to. *)
Module Pg.
Inductive PgError : Type :=
  | NotSingle        (* .single(): the result is not exactly one row *)
  | Failure (message : string).

Record Response (A : Type) : Type := mk {
  data : option A;
  error : option PgError
}.
Arguments mk {A} data error.
Arguments data {A} r.
Arguments error {A} r.

Definition ok {A} (a : A) : Response A := mk (Some a) None.
Definition fail {A} (e : PgError) : Response A := mk None (Some e).

(** [.single()] *)
Definition single {A} (rows : list A) : Response A :=
  match rows with
  | [row] => ok row
  | _ => fail NotSingle
  end.
End Pg.

Record Store : Type := mkStore {
  habits : list Habit.t;
  progress : list Progress.t
}.

(** [.order('date', { ascending: false })] *)
Definition date_desc (a b : Sel.t) : Prop := Sel.date b <= Sel.date a.

#[global] Instance date_desc_dec a b : Decision (date_desc a b).
Proof. unfold date_desc. apply _. Defined.

(** The query of [calculateStreaks]:
    [from('progress').select('date, completed').eq('habit_id', habitId)
       .eq('user_id', userId).eq('completed', true)
       .order('date', { ascending: false })]. *)
Definition completedOf (habitId userId : string) (r : Progress.t) : Prop :=
  Progress.habit_id r = habitId /\ Progress.user_id r = userId /\
  Progress.completed r = true.

#[global] Instance completedOf_dec h u r : Decision (completedOf h u r).
Proof. unfold completedOf. apply _. Defined.

Definition selectDateCompleted (r : Progress.t) : Sel.t :=
  Sel.mk (Progress.date r) (Progress.completed r).

Definition completedDatesDesc (rows : list Progress.t)
    (habitId userId : string) : list Sel.t :=
  merge_sort date_desc
    (selectDateCompleted <$> filter (completedOf habitId userId) rows).

(** The client seen by [calculateStreaks]: the promise its query returns. *)
Definition ProgressQuery : Type :=
  string -> string -> Promise (Pg.Response (list Sel.t)).

(** The client of a store that answers. *)
Definition supabaseOf (s : Store) : ProgressQuery :=
  fun habitId userId =>
    Fulfilled (Pg.ok (completedDatesDesc (progress s) habitId userId)).

(** ** calculateStreaks *)

Record Streaks : Type := mkStreaks {
  currentStreak : Z;
  longestStreak : Z
}.

(** The first loop, [for (let i = 0; i < progress.length; i++)], from the
    state [(i, currentStreak)].  [fuel] bounds the number of iterations
    (the loop is run with more fuel than it has iterations, so that it
    leaves through its own exit test, see [currentStreakLoop_walk]);
    [progress[i - 1].date] on a missing element throws. *)
Fixpoint currentStreakLoop (zone : TimeZone) (today : Z)
    (progress : list Sel.t)
    (fuel i : nat) (currentStreak : Z) : Exc Z :=
  match fuel with
  | O => Return currentStreak
  | S fuel =>
    match progress !! i with
    | None => Return currentStreak
    | Some row =>
      let progressDate := setHours0 zone (Sel.date row) in
      let daysDiff := floorDays today progressDate in
      if bool_decide (i = 0%nat) &&
         (bool_decide (daysDiff = 0) || bool_decide (daysDiff = 1))
      then currentStreakLoop zone today progress fuel (S i) 1
      else if bool_decide (0 < i)%nat then
        match progress !! (i - 1)%nat with
        | None => Throw
        | Some prevRow =>
          let prevDate := setHours0 zone (Sel.date prevRow) in
          let prevDaysDiff := floorDays prevDate progressDate in
          if bool_decide (prevDaysDiff = 1)
          then currentStreakLoop zone today progress fuel (S i)
                 (currentStreak + 1)
          else Return currentStreak
        end
      else currentStreakLoop zone today progress fuel (S i) currentStreak
    end
  end.

(** The second loop, [for (let i = 1; i < progress.length; i++)], from
    the state [(i, tempStreak, longestStreak)]. *)
Fixpoint longestStreakLoop (progress : list Sel.t) (fuel i : nat)
    (tempStreak longestStreak : Z) : Exc Z :=
  match fuel with
  | O => Return longestStreak
  | S fuel =>
    match progress !! i with
    | None => Return longestStreak
    | Some row =>
      let currentDate := Sel.date row in
      match progress !! (i - 1)%nat with
      | None => Throw
      | Some prevRow =>
        let prevDate := Sel.date prevRow in
        let daysDiff := floorDays prevDate currentDate in
        if bool_decide (daysDiff = 1)
        then let tempStreak := tempStreak + 1 in
             longestStreakLoop progress fuel (S i) tempStreak
               (Z.max longestStreak tempStreak)
        else longestStreakLoop progress fuel (S i) 1 longestStreak
      end
    end
  end.

Definition noStreaks : Streaks := mkStreaks 0 0.

(** The body of the [try] block. *)
Definition calculateStreaksBody (zone : TimeZone) (now : Z)
    (supabase : ProgressQuery) (habitId userId : string) : Exc Streaks :=
  r ← await (supabase habitId userId);
  match Pg.error r, Pg.data r with
  | Some _, _ => Return noStreaks
  | None, None => Return noStreaks
  | None, Some progress =>
    if bool_decide (length progress = 0%nat) then Return noStreaks
    else
      let today := setHours0 zone now in
      currentStreak ←
        currentStreakLoop zone today progress (S (length progress)) 0 0;
      longestStreak ←
        longestStreakLoop progress (S (length progress)) 1 1 1;
      Return (mkStreaks currentStreak longestStreak)
  end.

Definition calculateStreaks (zone : TimeZone) (now : Z)
    (supabase : ProgressQuery) (habitId userId : string) : Streaks :=
  try_catch (calculateStreaksBody zone now supabase habitId userId)
    noStreaks.

(** *** The two loops as recursions over the rows

    The same scans written by recursion on the rows that remain, with the
    previous row's date carried along.  [currentStreakLoop_walk] and
    [longestStreakLoop_walk] show that the loops compute them. *)

(** Iterations [i > 0] of the first loop; [prevDate] is the normalised
    date of row [i - 1]. *)
Fixpoint currentWalk (zone : TimeZone) (prevDate : Z) (rest : list Sel.t)
    (currentStreak : Z) : Z :=
  match rest with
  | [] => currentStreak
  | row :: rest =>
    let progressDate := setHours0 zone (Sel.date row) in
    if bool_decide (floorDays prevDate progressDate = 1)
    then currentWalk zone progressDate rest (currentStreak + 1)
    else currentStreak
  end.

Definition currentScan (zone : TimeZone) (today : Z)
    (progress : list Sel.t) : Z :=
  match progress with
  | [] => 0
  | row :: rest =>
    let progressDate := setHours0 zone (Sel.date row) in
    let daysDiff := floorDays today progressDate in
    currentWalk zone progressDate rest
      (if bool_decide (daysDiff = 0) || bool_decide (daysDiff = 1)
       then 1 else 0)
  end.

(** Iterations of the second loop; [prevDate] is the raw date of row
    [i - 1]. *)
Fixpoint longestWalk (prevDate : Z) (rest : list Sel.t)
    (tempStreak longestStreak : Z) : Z :=
  match rest with
  | [] => longestStreak
  | row :: rest =>
    let currentDate := Sel.date row in
    if bool_decide (floorDays prevDate currentDate = 1)
    then longestWalk currentDate rest (tempStreak + 1)
           (Z.max longestStreak (tempStreak + 1))
    else longestWalk currentDate rest 1 longestStreak
  end.

Definition longestScan (progress : list Sel.t) : Z :=
  match progress with
  | [] => 1
  | row :: rest => longestWalk (Sel.date row) rest 1 1
  end.

(** ** POST /toggle *)

(** The request after the [auth] middleware and the validators:
    [req.userId], [validationResult(req)], and the body; [body_date] is
    the time value of [new Date(date)], [None] when the string does not
    parse to a date (an invalid date). *)
Record ToggleRequest : Type := mkToggleRequest {
  req_userId : string;
  req_validationErrors : list string;
  body_habitId : string;
  body_date : option Z;
  body_notes : option string
}.

(** Which calls of the handler to the store resolve to
    [{ data: null, error }] instead of an answer, in the order of the
    source; a call that fails changes nothing in the store. *)
Record Faults : Type := mkFaults {
  habitLookupFails : bool;
  progressLookupFails : bool;
  progressUpdateFails : bool;
  progressInsertFails : bool;
  streaksQueryFails : bool;
  countQueryFails : bool;
  habitUpdateFails : bool
}.

(** The store answers every call. *)
Definition noFaults : Faults :=
  mkFaults false false false false false false false.

Definition storeError {A} : Pg.Response A :=
  Pg.fail (Pg.Failure "store call failed").

(** The response of a call: the store's answer, or an error. *)
Definition answer {A} (fails : bool) (r : Pg.Response A) : Pg.Response A :=
  if fails then storeError else r.

(** [const progressDate = new Date(date); progressDate.setHours(0, 0, 0,
    0); const dateString = progressDate.toISOString().split('T')[0]]:
    the day number of the string, [None] when the date is invalid (the
    string did not parse, or [setHours] left the range of time values)
    and [toISOString] throws a [RangeError]. *)
Definition dateStringOf (zone : TimeZone) (date : option Z) : option Z :=
  match date with
  | None => None
  | Some d =>
    match timeClip (setHours0 zone d) with
    | None => None
    | Some progressDate => Some (isoDateString progressDate)
    end
  end.

Inductive HttpResponse : Type :=
  | Json (progress : option Progress.t)     (* res.json(progress) *)
  | Status (status : Z) (message : string). (* res.status(..).json(..) *)

(** [.eq('id', habitId).eq('user_id', req.userId)] on [habits] *)
Definition habitOf (habitId userId : string) (h : Habit.t) : Prop :=
  Habit.id h = habitId /\ Habit.user_id h = userId.

#[global] Instance habitOf_dec h u x : Decision (habitOf h u x).
Proof. unfold habitOf. apply _. Defined.

(** [.eq('user_id', req.userId).eq('habit_id', habitId)
     .eq('date', dateString)] on [progress] *)
Definition progressOn (userId habitId : string) (dateString : Z)
    (r : Progress.t) : Prop :=
  Progress.user_id r = userId /\ Progress.habit_id r = habitId /\
  Progress.date r = ofDateString dateString.

#[global] Instance progressOn_dec u h d r : Decision (progressOn u h d r).
Proof. unfold progressOn. apply _. Defined.

(** The store's default for the [id] column of an inserted row: a value
    no row of the table has. *)
Definition freshId (rows : list Progress.t) : Z :=
  1 + foldr Z.max 0 (Progress.id <$> rows).

(** [.update({ completed, notes, updated_at }).eq('id', id)] *)
Definition updateProgress (id : Z) (completed : bool) (notes : string)
    (updated_at : Z) (r : Progress.t) : Progress.t :=
  if bool_decide (Progress.id r = id)
  then Progress.mk (Progress.id r) (Progress.user_id r)
         (Progress.habit_id r) (Progress.date r) completed notes
         (Progress.created_at r) (Some updated_at)
  else r.

(** [.update({ current_streak, longest_streak, total_completions,
     updated_at }).eq('id', habitId).eq('user_id', req.userId)] *)
Definition updateHabit (habitId userId : string) (st : Streaks)
    (totalCompletions updated_at : Z) (h : Habit.t) : Habit.t :=
  if bool_decide (habitOf habitId userId h)
  then Habit.mk (Habit.id h) (Habit.user_id h) (currentStreak st)
         (longestStreak st) totalCompletions (Some updated_at)
  else h.

(** The tail of the handler, after [progress] is set: recompute the
    streaks, count the completed rows, write both to the habit. *)
Definition updateHabitStats (zone : TimeZone) (now : Z) (f : Faults)
    (s : Store) (habitId userId : string) : Store :=
  let supabase : ProgressQuery :=
    if streaksQueryFails f then fun _ _ => Fulfilled storeError
    else supabaseOf s in
  let st := calculateStreaks zone now supabase habitId userId in
  let completionCount :=
    Pg.data
      (answer (countQueryFails f)
         (Pg.ok (Progress.id <$>
                 filter (completedOf habitId userId) (progress s)))) in
  (* completionCount?.length || 0 *)
  let totalCompletions :=
    from_option (fun ids => Z.of_nat (length ids)) 0 completionCount in
  if habitUpdateFails f then s
  else
    mkStore (updateHabit habitId userId st totalCompletions now <$> habits s)
      (progress s).

(** The handler.  An invalid date makes [toISOString] throw, and the
    handler's [catch] answers 500. *)
Definition postToggle (zone : TimeZone) (now : Z) (f : Faults) (s : Store)
    (req : ToggleRequest) : Store * HttpResponse :=
  if negb (bool_decide (req_validationErrors req = []))
  then (s, Status 400 "Validation failed")
  else
    let habitId := body_habitId req in
    let notes := body_notes req in
    let habit :=
      answer (habitLookupFails f)
        (Pg.single (Habit.id <$> filter (habitOf habitId (req_userId req))
                                   (habits s))) in
    match Pg.error habit, Pg.data habit with
    | None, Some _ =>
      match dateStringOf zone (body_date req) with
      | None => (s, Status 500 "Internal server error")
      | Some dateString =>
        let existing :=
          answer (progressLookupFails f)
            (Pg.single
               (filter (progressOn (req_userId req) habitId dateString)
                  (progress s))) in
        match Pg.data existing, Pg.error existing with
        | Some existingProgress, None =>
          (* Toggle existing progress *)
          let id := Progress.id existingProgress in
          let rows :=
            if progressUpdateFails f then progress s
            else
              updateProgress id (negb (Progress.completed existingProgress))
                (default (Progress.notes existingProgress) notes) now
              <$> progress s in
          let updated :=
            answer (progressUpdateFails f)
              (Pg.single (filter (fun r => Progress.id r = id) rows)) in
          let s1 := mkStore (habits s) rows in
          match Pg.error updated with
          | Some _ => (s1, Status 500 "Failed to update progress")
          | None =>
            (updateHabitStats zone now f s1 habitId (req_userId req),
             Json (Pg.data updated))
          end
        | _, _ =>
          (* Create new progress entry *)
          let newRow :=
            Progress.mk (freshId (progress s)) (req_userId req) habitId
              (ofDateString dateString) true (default "" notes) now None in
          let rows :=
            if progressInsertFails f then progress s
            else progress s ++ [newRow] in
          let created :=
            answer (progressInsertFails f) (Pg.single [newRow]) in
          let s1 := mkStore (habits s) rows in
          match Pg.error created with
          | Some _ => (s1, Status 500 "Failed to create progress")
          | None =>
            (updateHabitStats zone now f s1 habitId (req_userId req),
             Json (Pg.data created))
          end
        end
      end
    | _, _ => (s, Status 404 "Habit not found")
    end.

(** ** Store invariants *)

(** The calendar day of a progress row. *)
Definition recordDay (r : Progress.t) : Z := isoDateString (Progress.date r).

(** The key of the uniqueness invariant: (habit, calendar day). *)
Definition habitDay (r : Progress.t) : string * Z :=
  (Progress.habit_id r, recordDay r).

(** The [date] column holds a date without a time of day. *)
Definition dayGranular (r : Progress.t) : Prop :=
  Progress.date r = ofDateString (recordDay r).

(** A progress row belongs to the owner of its habit. *)
Definition owned (hs : list Habit.t) (r : Progress.t) : Prop :=
  Exists (habitOf (Progress.habit_id r) (Progress.user_id r)) hs.

Record StoreInv (s : Store) : Prop := mkStoreInv {
  inv_progress_id : NoDup (Progress.id <$> progress s);
  inv_habit_id : NoDup (Habit.id <$> habits s);
  inv_owned : Forall (owned (habits s)) (progress s);
  inv_day : Forall dayGranular (progress s);
  inv_one_per_day : NoDup (habitDay <$> progress s)
}.

(** ** Histories *)

(** A completed row of habit [h] of user [u] on a calendar day. *)
Definition completedRow (i : Z) (u h : string) (day : Z) : Progress.t :=
  Progress.mk i u h (ofDateString day) true "" 0 None.

(** In a zone of constant offset [tz]: the calendar day whose stored
    date the calculator reads as today, the day [d] with
    [setHours0 (fixedZone tz) (ofDateString d) =
     setHours0 (fixedZone tz) now].  It is the local date of the clock
    in UTC and east of it, and the day after it west of UTC. *)
Definition todayDay (tz now : Z) : Z :=
  (now + tz) / MS_PER_DAY - tz / MS_PER_DAY.

(** ** Vocabulary of the statements *)

(** What [calculateStreaks] returns on the rows of a successful query. *)
Definition streaksOfRows (zone : TimeZone) (now : Z) (rows : list Sel.t)
    : Streaks :=
  match rows with
  | [] => noStreaks
  | _ =>
    mkStreaks (currentScan zone (setHours0 zone now) rows) (longestScan rows)
  end.

(** The selected row of a completed calendar day. *)
Definition selDay (day : Z) : Sel.t := Sel.mk (ofDateString day) true.

(** Completed rows of habit [h] of user [u] on the given days, in table
    order, with ids from [i] on. *)
Fixpoint completedOn (u h : string) (i : Z) (days : list Z)
    : list Progress.t :=
  match days with
  | [] => []
  | day :: days => completedRow i u h day :: completedOn u h (i + 1) days
  end.

(** The local calendar day of an instant. *)
Definition localDay (zone : TimeZone) (t : Z) : Z :=
  LocalTime zone t / MS_PER_DAY.

(** A selected row whose date has no time of day. *)
Definition selDayGranular (x : Sel.t) : Prop :=
  Sel.date x = ofDateString (isoDateString (Sel.date x)).

#[global] Instance selDayGranular_dec x : Decision (selDayGranular x).
Proof. unfold selDayGranular. apply _. Defined.

(** A progress row with its date moved to local midnight. *)
Definition atMidnight (zone : TimeZone) (r : Progress.t) : Progress.t :=
  Progress.mk (Progress.id r) (Progress.user_id r) (Progress.habit_id r)
    (setHours0 zone (Progress.date r)) (Progress.completed r)
    (Progress.notes r) (Progress.created_at r) (Progress.updated_at r).

Definition selAtMidnight (zone : TimeZone) (x : Sel.t) : Sel.t :=
  Sel.mk (setHours0 zone (Sel.date x)) (Sel.completed x).

(** Two completions 2 hours apart on consecutive days (UTC): day 11 at
    01:00 and day 10 at 23:00. *)
Definition lateAndEarly : list Progress.t :=
  [ Progress.mk 1 "u" "h" (ofDateString 10 + 23 * 3600000) true "" 0 None;
    Progress.mk 2 "u" "h" (ofDateString 11 + 1 * 3600000) true "" 0 None ].

(** Three completed days of one habit, not in date order. *)
Definition threeDays : list Progress.t := completedOn "u" "h" 1 [5; 7; 6].

(** The calendar day a request toggles: its [dateString], when its date
    is valid. *)
Definition toggleDay (zone : TimeZone) (req : ToggleRequest) : option Z :=
  dateStringOf zone (body_date req).

(** A progress row of habit [h] on calendar day [day]. *)
Definition onDay (h : string) (day : Z) (r : Progress.t) : Prop :=
  Progress.habit_id r = h /\ recordDay r = day.

#[global] Instance onDay_dec h day r : Decision (onDay h day r).
Proof. unfold onDay. apply _. Defined.

(** A request that passes validation and names a habit of its user. *)
Definition accepted (s : Store) (req : ToggleRequest) : Prop :=
  req_validationErrors req = [] /\
  Exists (habitOf (body_habitId req) (req_userId req)) (habits s).

(** The row [r] after the request toggled it. *)
Definition flipped (now : Z) (req : ToggleRequest) (r : Progress.t)
    : Progress.t :=
  Progress.mk (Progress.id r) (Progress.user_id r) (Progress.habit_id r)
    (Progress.date r) (negb (Progress.completed r))
    (default (Progress.notes r) (body_notes req))
    (Progress.created_at r) (Some now).

(** The row the request creates for the day [day]. *)
Definition created (day now : Z) (s : Store) (req : ToggleRequest)
    : Progress.t :=
  Progress.mk (freshId (progress s)) (req_userId req) (body_habitId req)
    (ofDateString day) true (default "" (body_notes req)) now None.

(** A store with one habit and three completed days, and a request of
    the habit's owner for a given day (at 09:00 UTC). *)
Definition demoStore : Store :=
  mkStore [Habit.mk "h" "u" 0 0 0 None] threeDays.

Definition demoRequest (day : Z) : ToggleRequest :=
  mkToggleRequest "u" [] "h" (Some (ofDateString day + 9 * 3600000)) None.

(** ** Runs of days *)

(** [n] consecutive calendar days, most recent first, ending at [last]. *)
Fixpoint runDays (last : Z) (n : nat) : list Z :=
  match n with
  | O => []
  | S n => last :: runDays (last - 1) n
  end.

(** The number of completed rows of a habit: the [total_completions]
    the toggle handler stores. *)
Definition completions (s : Store) (habitId userId : string) : Z :=
  Z.of_nat (length (filter (completedOf habitId userId) (progress s))).

(** ** GET /today *)

(** An element of the response of [GET /today]. *)
Record TodayEntry : Type := mkTodayEntry {
  entry_habit : Habit.t;
  entry_completed : bool;
  entry_notes : string;
  entry_progressId : option Z
}.

(** [todayString]: [today.setHours(0, 0, 0, 0)] then
    [toISOString().split('T')[0]]. *)
Definition todayString (zone : TimeZone) (now : Z) : Z :=
  isoDateString (setHours0 zone now).

(** [.eq('user_id', req.userId).eq('date', todayString)] on [progress] *)
Definition progressOfDay (userId : string) (dateString : Z)
    (r : Progress.t) : Prop :=
  Progress.user_id r = userId /\ Progress.date r = ofDateString dateString.

#[global] Instance progressOfDay_dec u d r : Decision (progressOfDay u d r).
Proof. unfold progressOfDay. apply _. Defined.

(** [habits.map(habit => { const habitProgress = progress.find(p =>
    p.habit_id === habit.id); ... })] *)
Definition combineToday (habits : list Habit.t) (progress : list Progress.t)
    : list TodayEntry :=
  (fun habit =>
     let habitProgress :=
       head (filter (fun p => Progress.habit_id p = Habit.id habit)
               progress) in
     mkTodayEntry habit
       (from_option Progress.completed false habitProgress)
       (from_option Progress.notes "" habitProgress)
       (Progress.id <$> habitProgress))
  <$> habits.

(** The handler of [GET /today] from the result [habits] of its habits
    query on (the [is_active] and [created_at] columns that query
    filters and orders by are not columns of [Habit.t]). *)
Definition getToday (zone : TimeZone) (now : Z) (s : Store)
    (userId : string) (habits : list Habit.t) : list TodayEntry :=
  combineToday habits
    (filter (progressOfDay userId (todayString zone now)) (progress s)).

(** ** GET /stats *)

(** The [days] query parameter after [parseInt], with its default:
    absent, an integer, or not a number (or not finite). *)
Inductive DaysParam : Type :=
  | DaysAbsent
  | DaysInt (n : Z)
  | DaysNaN.

(** [parseInt(days)] with [days = 30] by default; [None] is [NaN]. *)
Definition parseIntDays (days : DaysParam) : option Z :=
  match days with
  | DaysAbsent => Some 30
  | DaysInt n => Some n
  | DaysNaN => None
  end.

(** The integer fields of the response ([completionRate], a
    floating-point quotient, is not modelled). *)
Record Stats : Type := mkStats {
  completedDays : Z;
  totalDays : Z;
  missedDays : Z
}.

Inductive StatsResponse : Type :=
  | StatsJson (stats : Stats)
  | StatsStatus (status : Z) (message : string).

(** [.eq('user_id', req.userId).gte('date', startDateString)
     .lte('date', endDateString)], and [.eq('habit_id', habitId)] when
    [habitId] is given (and not the empty string). *)
Definition statsRow (userId : string) (habitId : option string)
    (startDateString endDateString : Z) (r : Progress.t) : Prop :=
  Progress.user_id r = userId /\
  ofDateString startDateString <= Progress.date r /\
  Progress.date r <= ofDateString endDateString /\
  match habitId with
  | Some h => h = "" \/ Progress.habit_id r = h
  | None => True
  end.

#[global] Instance statsRow_dec u h a b r : Decision (statsRow u h a b r).
Proof. unfold statsRow. destruct h; apply _. Defined.

(** [startDate.setDate(startDate.getDate() - n)]: the local time of
    the clock moved back [n] days, read back as an instant,
    [TimeClip(UTC(MakeDate(Day(LocalTime(t)) - n,
                           TimeWithinDay(LocalTime(t)))))];
    [None] is an invalid date. *)
Definition daysBack (zone : TimeZone) (now n : Z) : option Z :=
  timeClip (UTC zone (LocalTime zone now - n * MS_PER_DAY)).

(** The handler of [GET /stats], with a query that succeeds.  When
    [parseInt(days)] is [NaN], or the start date leaves the range of
    time values, the start date is invalid and [toISOString] throws a
    [RangeError], which the handler's [catch] answers with 500. *)
Definition getStats (zone : TimeZone) (now : Z) (s : Store)
    (userId : string) (habitId : option string) (days : DaysParam)
    : StatsResponse :=
  match parseIntDays days with
  | None => StatsStatus 500 "Internal server error"
  | Some n =>
    let endDate := now in
    match daysBack zone now n with
    | None => StatsStatus 500 "Internal server error"
    | Some startDate =>
      let endDateString := isoDateString endDate in
      let startDateString := isoDateString startDate in
      let progress :=
        filter (statsRow userId habitId startDateString endDateString)
          (progress s) in
      let completedDays :=
        Z.of_nat (length (filter (fun p => Progress.completed p = true)
                            progress)) in
      let totalDays := n in
      StatsJson (mkStats completedDays totalDays (totalDays - completedDays))
    end
  end.

(** ** DELETE /account *)



(** ** A zone with daylight saving time *)

(** 2024-01-09, 2024-01-10, 2024-03-10 and 2024-03-12 as day numbers. *)
Definition day_2024_01_09 : Z := 19731.
Definition day_2024_01_10 : Z := 19732.
Definition day_2024_03_10 : Z := 19792.
Definition day_2024_03_12 : Z := 19794.

Definition MS_PER_HOUR : Z := 3600000.

(** America/New_York around the start of daylight saving time in 2024:
    UTC-5 until 2024-03-10T07:00Z (02:00 local standard time), UTC-4 from
    then on.  A local time is read as standard time before 03:00 of that
    day and as daylight time from then on. *)
Definition newYork2024 : TimeZone :=
  mkTimeZone
    (fun t =>
       if bool_decide (t < ofDateString day_2024_03_10 + 7 * MS_PER_HOUR)
       then - (5 * MS_PER_HOUR) else - (4 * MS_PER_HOUR))
    (fun tl =>
       if bool_decide (tl < ofDateString day_2024_03_10 + 3 * MS_PER_HOUR)
       then - (5 * MS_PER_HOUR) else - (4 * MS_PER_HOUR)).

(** A zone five hours west of UTC all year. *)
Definition utcMinus5 : TimeZone := fixedZone (- (5 * MS_PER_HOUR)).

(** A store holding completed rows of habit ["h"] of user ["u"] on the
    given calendar days. *)
Definition historyOf (days : list Z) : Store :=
  mkStore [] (completedOn "u" "h" 1 days).

(** The lookup of the day's record reports an error; every other store
    call succeeds. *)
Definition lookupFails : Faults :=
  mkFaults false true false false false false false.

(** An instant between 1970-01-01 and 9999-12-31 (UTC): a valid time
    value whose ISO string has a four-digit year.  Day 2932896 is
    9999-12-31. *)
Definition plainDate (t : Z) : Prop := 0 <= t < ofDateString 2932897.

#[global] Instance plainDate_dec t : Decision (plainDate t).
Proof. unfold plainDate. apply _. Defined.

(** * Properties *)

(** ** Date arithmetic *)

Lemma MS_PER_DAY_pos : 0 < MS_PER_DAY.
Proof. reflexivity. Qed.

Lemma MS_PER_DAY_neq0 : MS_PER_DAY <> 0.
Proof. discriminate. Qed.

#[local] Hint Resolve MS_PER_DAY_pos MS_PER_DAY_neq0 : core.

(** [setHours(0, 0, 0, 0)] in a zone of constant offset. *)
Lemma setHours0_fixed tz t :
  setHours0 (fixedZone tz) t = (t + tz) / MS_PER_DAY * MS_PER_DAY - tz.
Proof. reflexivity. Qed.

Lemma localDay_fixed tz t : localDay (fixedZone tz) t = (t + tz) / MS_PER_DAY.
Proof. reflexivity. Qed.

Lemma setHours0_local_day tz t :
  (setHours0 (fixedZone tz) t + tz) / MS_PER_DAY = (t + tz) / MS_PER_DAY.
Proof.
  rewrite setHours0_fixed.
  replace ((t + tz) / MS_PER_DAY * MS_PER_DAY - tz + tz)
    with ((t + tz) / MS_PER_DAY * MS_PER_DAY) by lia.
  apply Z.div_mul; auto.
Qed.

(** [setHours(0, 0, 0, 0)] twice is [setHours(0, 0, 0, 0)] once. *)
Lemma setHours0_idem tz t :
  setHours0 (fixedZone tz) (setHours0 (fixedZone tz) t) =
  setHours0 (fixedZone tz) t.
Proof.
  rewrite (setHours0_fixed tz (setHours0 (fixedZone tz) t)).
  rewrite setHours0_local_day. symmetry. apply setHours0_fixed.
Qed.

(** Two local midnights are a whole number of days apart. *)
Lemma floorDays_setHours0 tz a b :
  floorDays (setHours0 (fixedZone tz) a) (setHours0 (fixedZone tz) b) =
  (a + tz) / MS_PER_DAY - (b + tz) / MS_PER_DAY.
Proof.
  unfold floorDays. rewrite !setHours0_fixed.
  replace ((a + tz) / MS_PER_DAY * MS_PER_DAY - tz -
           ((b + tz) / MS_PER_DAY * MS_PER_DAY - tz))
    with (((a + tz) / MS_PER_DAY - (b + tz) / MS_PER_DAY) * MS_PER_DAY)
    by lia.
  apply Z.div_mul; auto.
Qed.

Lemma local_day_ofDateString tz d :
  (ofDateString d + tz) / MS_PER_DAY = d + tz / MS_PER_DAY.
Proof. unfold ofDateString. apply Z.div_add_l; auto. Qed.

Lemma floorDays_ofDateString a b :
  floorDays (ofDateString a) (ofDateString b) = a - b.
Proof.
  unfold floorDays, ofDateString.
  replace (a * MS_PER_DAY - b * MS_PER_DAY) with ((a - b) * MS_PER_DAY)
    by lia.
  apply Z.div_mul; auto.
Qed.

Lemma isoDateString_ofDateString d : isoDateString (ofDateString d) = d.
Proof. unfold isoDateString, ofDateString. apply Z.div_mul; auto. Qed.

(** The stored day [todayDay tz now - k] lies [k] days before today. *)
Lemma floorDays_today tz now d :
  floorDays (setHours0 (fixedZone tz) now)
    (setHours0 (fixedZone tz) (ofDateString d)) =
  todayDay tz now - d.
Proof.
  rewrite floorDays_setHours0, local_day_ofDateString.
  unfold todayDay. lia.
Qed.

(** [todayDay] is the stored day that normalises to today's midnight. *)
Lemma setHours0_todayDay tz now :
  setHours0 (fixedZone tz) (ofDateString (todayDay tz now)) =
  setHours0 (fixedZone tz) now.
Proof.
  rewrite !setHours0_fixed, local_day_ofDateString.
  unfold todayDay. f_equal. f_equal. lia.
Qed.

Lemma floorDays_days tz a b :
  floorDays (setHours0 (fixedZone tz) (ofDateString a))
    (setHours0 (fixedZone tz) (ofDateString b))
  = a - b.
Proof. rewrite floorDays_setHours0, !local_day_ofDateString. lia. Qed.

(** ** The loops compute the scans *)

Lemma currentStreakLoop_walk zone today l prev fuel :
  forall (i : nat) cur,
    (0 < i)%nat ->
    l !! (i - 1)%nat = Some prev ->
    (length l - i < fuel)%nat ->
    currentStreakLoop zone today l fuel i cur =
    Return (currentWalk zone (setHours0 zone (Sel.date prev)) (drop i l) cur).
Proof.
  revert prev. induction fuel as [|fuel IH]; intros prev i cur Hi Hprev Hfuel.
  { lia. }
  simpl. destruct (l !! i) as [row|] eqn:Hrow.
  - pose proof (lookup_lt_Some _ _ _ Hrow) as Hlt.
    rewrite (drop_S _ _ _ Hrow). simpl.
    rewrite bool_decide_eq_false_2 by lia. simpl.
    rewrite bool_decide_eq_true_2 by lia.
    rewrite Hprev.
    case_bool_decide; [|reflexivity].
    apply IH; [lia| |lia].
    replace (S i - 1)%nat with i by lia. exact Hrow.
  - apply lookup_ge_None_1 in Hrow.
    rewrite drop_ge by lia. reflexivity.
Qed.

Lemma currentStreakLoop_scan zone today l fuel :
  (length l < fuel)%nat ->
  currentStreakLoop zone today l fuel 0 0 = Return (currentScan zone today l).
Proof.
  intros Hfuel. destruct fuel as [|fuel]; [lia|].
  destruct l as [|row rest]; [reflexivity|].
  cbn [currentStreakLoop lookup list_lookup currentScan].
  rewrite bool_decide_eq_true_2 by reflexivity.
  rewrite andb_true_l.
  rewrite (bool_decide_eq_false_2 (0 < 0)%nat) by lia.
  cbn in Hfuel.
  destruct (_ || _);
    rewrite (currentStreakLoop_walk zone today (row :: rest) row)
      by (cbn; first [lia | reflexivity]);
    reflexivity.
Qed.

Lemma longestStreakLoop_walk l prev fuel :
  forall (i : nat) temp longest,
    (0 < i)%nat ->
    l !! (i - 1)%nat = Some prev ->
    (length l - i < fuel)%nat ->
    longestStreakLoop l fuel i temp longest =
    Return (longestWalk (Sel.date prev) (drop i l) temp longest).
Proof.
  revert prev. induction fuel as [|fuel IH];
    intros prev i temp longest Hi Hprev Hfuel.
  { lia. }
  simpl. destruct (l !! i) as [row|] eqn:Hrow.
  - pose proof (lookup_lt_Some _ _ _ Hrow) as Hlt.
    rewrite (drop_S _ _ _ Hrow). simpl. rewrite Hprev.
    case_bool_decide; apply IH; try lia;
      replace (S i - 1)%nat with i by lia; exact Hrow.
  - apply lookup_ge_None_1 in Hrow.
    rewrite drop_ge by lia. reflexivity.
Qed.

Lemma longestStreakLoop_scan l fuel :
  l <> [] ->
  (length l < fuel)%nat ->
  longestStreakLoop l fuel 1 1 1 = Return (longestScan l).
Proof.
  intros Hne Hfuel. destruct l as [|row rest]; [congruence|].
  rewrite (longestStreakLoop_walk (row :: rest) row)
    by (cbn in *; first [lia | reflexivity]).
  reflexivity.
Qed.

(** ** calculateStreaks in closed form *)

Lemma calculateStreaksBody_rows zone now (q : ProgressQuery) h u rows :
  q h u = Fulfilled (Pg.ok rows) ->
  calculateStreaksBody zone now q h u = Return (streaksOfRows zone now rows).
Proof.
  intros Hq. unfold calculateStreaksBody. rewrite Hq.
  cbn [await mbind Exc_bind Pg.ok Pg.error Pg.data].
  case_bool_decide as Hlen.
  - apply length_zero_iff_nil in Hlen. subst. reflexivity.
  - assert (rows <> []) as Hne by (intros ->; apply Hlen; reflexivity).
    rewrite currentStreakLoop_scan by lia.
    rewrite longestStreakLoop_scan by (auto; lia).
    destruct rows; [congruence|reflexivity].
Qed.

Lemma calculateStreaks_eq zone now (q : ProgressQuery) h u :
  calculateStreaks zone now q h u =
  match q h u with
  | Rejected => noStreaks
  | Fulfilled r =>
    match Pg.error r, Pg.data r with
    | None, Some rows => streaksOfRows zone now rows
    | _, _ => noStreaks
    end
  end.
Proof.
  unfold calculateStreaks.
  destruct (q h u) as [[[rows|] [e|]]|] eqn:Hq;
    try (unfold calculateStreaksBody; rewrite Hq; reflexivity).
  rewrite (calculateStreaksBody_rows _ _ _ _ _ rows) by exact Hq.
  reflexivity.
Qed.

Lemma calculateStreaks_store zone now s h u :
  calculateStreaks zone now (supabaseOf s) h u =
  streaksOfRows zone now (completedDatesDesc (progress s) h u).
Proof. rewrite calculateStreaks_eq. reflexivity. Qed.

(** ** The query *)

#[global] Instance date_desc_trans : Transitive date_desc.
Proof. unfold date_desc. intros a b c ? ?. lia. Qed.

#[global] Instance date_desc_total : Total date_desc.
Proof. unfold date_desc. intros a b. lia. Qed.

Lemma completedDatesDesc_sorted (rows : list Progress.t) h u :
  Sorted date_desc (completedDatesDesc rows h u).
Proof. apply Sorted_merge_sort. apply _. Qed.

Lemma completedDatesDesc_perm (rows : list Progress.t) h u :
  Permutation (completedDatesDesc rows h u)
    (selectDateCompleted <$> filter (completedOf h u) rows).
Proof. apply merge_sort_Permutation. Qed.

Lemma selected_completed (rows : list Progress.t) h u x :
  x ∈ selectDateCompleted <$> filter (completedOf h u) rows ->
  Sel.completed x = true.
Proof.
  intros Hx. apply list_elem_of_fmap in Hx as (r & -> & Hr).
  apply list_elem_of_filter in Hr as [(_ & _ & Hc) _]. exact Hc.
Qed.

(** The descending order of the completed dates is the only one: a sorted
    arrangement of the selected rows is the query's result. *)
Lemma completedDatesDesc_unique (rows : list Progress.t) h u l :
  Sorted date_desc l ->
  Permutation l (selectDateCompleted <$> filter (completedOf h u) rows) ->
  completedDatesDesc rows h u = l.
Proof.
  intros Hsorted Hperm.
  apply (Sorted_unique_strong date_desc).
  - intros [d1 c1] [d2 c2] H1 H2 Hle1 Hle2.
    rewrite completedDatesDesc_perm in H1. rewrite Hperm in H2.
    apply selected_completed in H1, H2. cbn in *. unfold date_desc in *.
    cbn in *. subst. f_equal. lia.
  - apply completedDatesDesc_sorted.
  - exact Hsorted.
  - rewrite completedDatesDesc_perm. symmetry. exact Hperm.
Qed.

Lemma completedDatesDesc_Permutation (rows rows' : list Progress.t) h u :
  Permutation rows rows' ->
  completedDatesDesc rows h u = completedDatesDesc rows' h u.
Proof.
  intros Hperm. apply completedDatesDesc_unique.
  - apply completedDatesDesc_sorted.
  - rewrite completedDatesDesc_perm. rewrite Hperm. reflexivity.
Qed.

(** ** Histories given by their days *)

Lemma filter_completedOn u h i days :
  filter (completedOf h u) (completedOn u h i days) = completedOn u h i days.
Proof.
  revert i. induction days as [|d days IH]; intros i; [reflexivity|].
  cbn [completedOn]. rewrite filter_cons_True by (repeat split).
  rewrite IH. reflexivity.
Qed.

Lemma select_completedOn u h i days :
  selectDateCompleted <$> completedOn u h i days = selDay <$> days.
Proof.
  revert i. induction days as [|d days IH]; intros i; [reflexivity|].
  cbn [completedOn fmap list_fmap]. f_equal. apply IH.
Qed.

Lemma Sorted_selDay days :
  Sorted (flip Z.le) days -> Sorted date_desc (selDay <$> days).
Proof.
  apply Sorted_fmap. intros x y Hxy. unfold date_desc, selDay, ofDateString.
  cbn in *. pose proof MS_PER_DAY_pos. nia.
Qed.

(** The query on such a table returns the days in descending order. *)
Lemma completedDatesDesc_completedOn u h i days sorted :
  Sorted (flip Z.le) sorted ->
  Permutation sorted days ->
  completedDatesDesc (completedOn u h i days) h u = selDay <$> sorted.
Proof.
  intros Hsorted Hperm. apply completedDatesDesc_unique.
  - apply Sorted_selDay, Hsorted.
  - rewrite filter_completedOn, select_completedOn, Hperm. reflexivity.
Qed.

Lemma completedDatesDesc_single u h i day :
  completedDatesDesc (completedOn u h i [day]) h u = [selDay day].
Proof.
  apply (completedDatesDesc_completedOn u h i [day] [day]);
    [repeat constructor | reflexivity].
Qed.

Ltac sorted_days :=
  repeat first [ apply Sorted_nil | apply Sorted_cons | apply HdRel_nil
               | apply HdRel_cons ];
  unfold flip; lia.

(** Evaluate the scans on rows given by their days. *)
Ltac scan_days :=
  repeat (cbn [streaksOfRows currentScan currentWalk longestScan longestWalk
                 fmap list_fmap selDay Sel.date];
          rewrite ?floorDays_days, ?floorDays_today, ?floorDays_ofDateString;
          repeat (case_bool_decide; try lia));
  try reflexivity.

(** ** The streak calculator on the histories of the specification *)

Lemma floorDays_localDay tz a b :
  floorDays (setHours0 (fixedZone tz) a) (setHours0 (fixedZone tz) b) =
  localDay (fixedZone tz) a - localDay (fixedZone tz) b.
Proof. apply floorDays_setHours0. Qed.

(** C3. With no completion date the calculator returns (0, 0), whatever
    the clock and the time zone: when the query resolves to an empty
    array, when the progress table is empty, and when the table has no
    completed row of the habit. *)
Theorem empty_history_no_streaks zone now hs (rows : list Progress.t) h u :
  calculateStreaks zone now (fun _ _ => Fulfilled (Pg.ok [])) h u
  = mkStreaks 0 0
  /\ calculateStreaks zone now (supabaseOf (mkStore hs [])) h u = mkStreaks 0 0
  /\ calculateStreaks zone now
       (supabaseOf
          (mkStore hs (filter (fun r => ~ completedOf h u r) rows))) h u
     = mkStreaks 0 0.
Proof.
  split; [reflexivity|]. split; [reflexivity|].
  rewrite calculateStreaks_store. cbn [progress].
  unfold completedDatesDesc.
  replace (filter (completedOf h u)
             (filter (fun r => ~ completedOf h u r) rows))
    with (@nil Progress.t); [reflexivity|].
  symmetry. induction rows as [|r rows IH]; [reflexivity|].
  destruct (decide (completedOf h u r)) as [Hr|Hr].
  - rewrite (filter_cons_False (fun r => ~ completedOf h u r))
      by (intros H; exact (H Hr)).
    exact IH.
  - rewrite (filter_cons_True (fun r => ~ completedOf h u r)) by exact Hr.
    rewrite filter_cons_False by exact Hr. exact IH.
Qed.

(** X25. In a zone of constant offset less than a day, with today the
    local date of the clock, the history {today, today-1, today-2} gives
    (3, 3) and the history {today, today-1, today-5, today-6, today-7}
    gives current 2 and longest 3. *)
Theorem consecutive_histories_constant_offset tz now hs u h :
  - MS_PER_DAY < tz < MS_PER_DAY ->
  let today := localDay (fixedZone tz) now in
  calculateStreaks (fixedZone tz) now
    (supabaseOf
       (mkStore hs (completedOn u h 1 [today - 2; today - 1; today]))) h u
  = mkStreaks 3 3
  /\ calculateStreaks (fixedZone tz) now
       (supabaseOf
          (mkStore hs
             (completedOn u h 1
                [today - 7; today - 6; today - 5; today - 1; today]))) h u
     = mkStreaks 2 3.
Proof.
  intros Htz today.
  assert (0 <= todayDay tz now - today <= 1) as Htoday.
  { subst today. rewrite localDay_fixed. unfold todayDay.
    change MS_PER_DAY with 86400000 in *. Z.div_mod_to_equations. lia. }
  clearbody today.
  split; rewrite calculateStreaks_store; cbn [progress].
  - rewrite (completedDatesDesc_completedOn _ _ _ _
               [today; today - 1; today - 2]);
      [scan_days | sorted_days | apply (Permutation_rev [_; _; _])].
  - rewrite (completedDatesDesc_completedOn _ _ _ _
               [today; today - 1; today - 5; today - 6; today - 7]);
      [scan_days | sorted_days | apply (Permutation_rev [_; _; _; _; _])].
Qed.

(** C4, as the code has it.  In New York at noon of 2024-03-12, two days
    after the clocks went forward, the history {today, today-1, today-2}
    = {03-12, 03-11, 03-10} gives current 1 (not 3) and longest 3: the
    local midnights the first loop compares are 23 hours apart across
    the change, and [Math.floor] of 23/24 is 0.  The history {today,
    today-1, today-5, today-6, today-7} gives current 1 (not 2) and
    longest 3 for the same reason. *)
Theorem dst_breaks_consecutive_days :
  let now := ofDateString day_2024_03_12 + 16 * MS_PER_HOUR in
  let today := day_2024_03_12 in
  localDay newYork2024 now = today
  /\ calculateStreaks newYork2024 now
       (supabaseOf (historyOf [today - 2; today - 1; today])) "h" "u"
     = mkStreaks 1 3
  /\ calculateStreaks newYork2024 now
       (supabaseOf
          (historyOf [today - 7; today - 6; today - 5; today - 1; today]))
       "h" "u"
     = mkStreaks 1 3.
Proof. repeat split; vm_compute; reflexivity. Qed.

(** C1, as the code has it.  On the history {today-3, today-4, today-5}
    the first loop does not stop at [i = 0]: the pairs one day apart are
    counted although the most recent date is three days old, and the
    calculator returns current 2 (not 0) and longest 3. *)
Theorem stale_history_counts_pairs tz now hs u h :
  let today := todayDay tz now in
  calculateStreaks (fixedZone tz) now
    (supabaseOf
       (mkStore hs (completedOn u h 1 [today - 5; today - 4; today - 3]))) h u
  = mkStreaks 2 3.
Proof.
  intros today. subst today. rewrite calculateStreaks_store. cbn [progress].
  rewrite (completedDatesDesc_completedOn _ _ _ _
             [todayDay tz now - 3; todayDay tz now - 4; todayDay tz now - 5]);
    [scan_days | sorted_days | apply (Permutation_rev [_; _; _])].
Qed.

(** X26. In a zone of constant offset a history of one completed row
    has longest streak 1, and current streak 1 exactly when the local
    day of the row's date (parsed as an instant) is the clock's local
    day or the day before. *)
Theorem single_row_streaks_constant_offset tz now hs i u h d n ca ua :
  let age := localDay (fixedZone tz) now - localDay (fixedZone tz) d in
  calculateStreaks (fixedZone tz) now
    (supabaseOf (mkStore hs [Progress.mk i u h d true n ca ua])) h u
  = mkStreaks (if bool_decide (age = 0 \/ age = 1) then 1 else 0) 1.
Proof.
  intros age. subst age.
  rewrite calculateStreaks_store. cbn [progress].
  unfold completedDatesDesc.
  rewrite filter_cons_True by (repeat split).
  cbn. rewrite floorDays_localDay.
  repeat case_bool_decide; try reflexivity; lia.
Qed.

(** C5, as the code has it.  On a server five hours west of UTC, at
    10:00 local time of 2024-01-10, a history of the single date
    2024-01-09 (yesterday) gives current 0 and longest 1, not (1, 1): the
    stored date is parsed as midnight UTC, which is 19:00 of 2024-01-08
    local time, so [setHours(0, 0, 0, 0)] moves it to the local midnight
    of 2024-01-08, two days before today's.  The single date 2024-01-10
    (today) gives (1, 1) only through the one-day grace. *)
Theorem yesterday_west_of_utc :
  let now := ofDateString day_2024_01_10 + 15 * MS_PER_HOUR in
  localDay utcMinus5 now = day_2024_01_10
  /\ calculateStreaks utcMinus5 now
       (supabaseOf (historyOf [day_2024_01_09])) "h" "u"
     = mkStreaks 0 1
  /\ floorDays (setHours0 utcMinus5 now)
       (setHours0 utcMinus5 (ofDateString day_2024_01_09)) = 2
  /\ floorDays (setHours0 utcMinus5 now)
       (setHours0 utcMinus5 (ofDateString day_2024_01_10)) = 1.
Proof. repeat split; vm_compute; reflexivity. Qed.

(** ** Bounds on the streaks *)

(** On dates without a time of day the first loop's normalised
    difference is the second loop's raw difference. *)
Lemma floorDays_granular tz a b :
  selDayGranular a -> selDayGranular b ->
  floorDays (setHours0 (fixedZone tz) (Sel.date a))
    (setHours0 (fixedZone tz) (Sel.date b)) =
  floorDays (Sel.date a) (Sel.date b).
Proof.
  unfold selDayGranular. intros -> ->.
  rewrite floorDays_days, floorDays_ofDateString. reflexivity.
Qed.

Lemma currentWalk_ge zone rest :
  forall prev cur, cur <= currentWalk zone prev rest cur.
Proof.
  induction rest as [|r rest IH]; intros prev cur; cbn; [lia|].
  case_bool_decide; [|lia].
  specialize (IH (setHours0 zone (Sel.date r)) (cur + 1)). lia.
Qed.

Lemma longestWalk_ge rest :
  forall prev temp longest, longest <= longestWalk prev rest temp longest.
Proof.
  induction rest as [|r rest IH]; intros prev temp longest; cbn; [lia|].
  case_bool_decide.
  - specialize (IH (Sel.date r) (temp + 1) (longest `max` (temp + 1))). lia.
  - apply IH.
Qed.

(** The run the first loop extends is a run the second loop counts. *)
Lemma currentWalk_le_longestWalk tz rest :
  forall prev cur temp longest,
    selDayGranular prev -> Forall selDayGranular rest ->
    cur <= temp -> temp <= longest ->
    currentWalk (fixedZone tz) (setHours0 (fixedZone tz) (Sel.date prev))
      rest cur <=
    longestWalk (Sel.date prev) rest temp longest.
Proof.
  induction rest as [|r rest IH];
    intros prev cur temp longest Hprev Hrest Hcur Htemp; cbn; [lia|].
  apply Forall_cons in Hrest as [Hr Hrest].
  rewrite floorDays_granular by assumption.
  case_bool_decide.
  - apply IH; [assumption..|lia|lia].
  - pose proof (longestWalk_ge rest (Sel.date r) 1 longest). lia.
Qed.

Lemma streaksOfRows_bounds tz now rows :
  Forall selDayGranular rows ->
  0 <= currentStreak (streaksOfRows (fixedZone tz) now rows)
    <= longestStreak (streaksOfRows (fixedZone tz) now rows).
Proof.
  intros Hrows. destruct rows as [|r rest]; [cbn; lia|].
  apply Forall_cons in Hrows as [Hr Hrest].
  cbn [streaksOfRows currentStreak longestStreak currentScan longestScan].
  split.
  - etransitivity; [|apply currentWalk_ge]. destruct (_ || _); lia.
  - apply currentWalk_le_longestWalk; [assumption..| |lia].
    destruct (_ || _); lia.
Qed.

(** Calendar dates in the table are calendar dates in the query's
    result. *)
Lemma selDayGranular_completedDatesDesc (rows : list Progress.t) h u :
  Forall dayGranular rows ->
  Forall selDayGranular (completedDatesDesc rows h u).
Proof.
  intros Hrows. rewrite completedDatesDesc_perm.
  apply Forall_fmap. apply Forall_forall. intros r Hr.
  apply list_elem_of_filter in Hr as [_ Hr].
  rewrite Forall_forall in Hrows. apply (Hrows r Hr).
Qed.

(** X27. In a zone of constant offset the bounds
    0 <= currentStreak <= longestStreak hold on every store that
    satisfies the invariant of the toggle handler (dates without a time
    of day). *)
Theorem StoreInv_streak_bounds tz now s h u :
  StoreInv s ->
  0 <= currentStreak (calculateStreaks (fixedZone tz) now (supabaseOf s) h u)
    <= longestStreak (calculateStreaks (fixedZone tz) now (supabaseOf s) h u).
Proof.
  intros Hinv. rewrite calculateStreaks_store.
  apply streaksOfRows_bounds, selDayGranular_completedDatesDesc, Hinv.
Qed.

(** C2, as the code has it.  The current streak can exceed the longest
    streak.  In UTC, completions at 23:00 of day 10 and 01:00 of day 11,
    read at noon of day 11, give current 2 and longest 1: the first loop
    compares local midnights, the second loop the raw instants, which
    are 2 hours apart.  With dates that have no time of day: in New York
    at noon of 2024-03-12 the dates 2024-03-12 and 2024-03-10 give
    current 2 and longest 1, since across the start of daylight saving
    time the local midnights of the two rows are 47 hours apart and
    [Math.floor] of 47/24 is 1. *)
Theorem longest_below_current :
  calculateStreaks (fixedZone 0) (ofDateString 11 + 12 * MS_PER_HOUR)
    (supabaseOf (mkStore [] lateAndEarly)) "h" "u"
  = mkStreaks 2 1
  /\ calculateStreaks newYork2024
       (ofDateString day_2024_03_12 + 16 * MS_PER_HOUR)
       (supabaseOf (historyOf [day_2024_03_10; day_2024_03_12])) "h" "u"
     = mkStreaks 2 1
  /\ Forall selDayGranular
       (completedDatesDesc
          (progress (historyOf [day_2024_03_10; day_2024_03_12])) "h" "u").
Proof.
  split; [vm_compute; reflexivity|].
  split; [vm_compute; reflexivity|].
  apply (bool_decide_unpack _). vm_compute. exact I.
Qed.

(** C7. The longest streak does not depend on the clock reading (nor on
    the time zone): for every client, two reference dates give the same
    longestStreak; on a store it is the longest-run scan of the whole
    completed history. *)
Theorem longest_independent_of_today zone1 zone2 now1 now2 (q : ProgressQuery)
    s h u :
  longestStreak (calculateStreaks zone1 now1 q h u) =
  longestStreak (calculateStreaks zone2 now2 q h u)
  /\ longestStreak (calculateStreaks zone1 now1 (supabaseOf s) h u) =
     match completedDatesDesc (progress s) h u with
     | [] => 0
     | rows => longestScan rows
     end.
Proof.
  split.
  - rewrite !calculateStreaks_eq.
    destruct (q h u) as [[[[|r rows]|] [e|]]|]; reflexivity.
  - rewrite calculateStreaks_store.
    destruct (completedDatesDesc (progress s) h u); reflexivity.
Qed.

(** C8. The result does not depend on the order of the rows of the
    progress table: a permutation of the table gives the same streaks. *)
Theorem streaks_order_independent zone now hs (rows rows' : list Progress.t)
    h u :
  Permutation rows rows' ->
  calculateStreaks zone now (supabaseOf (mkStore hs rows)) h u =
  calculateStreaks zone now (supabaseOf (mkStore hs rows')) h u.
Proof.
  intros Hperm. rewrite !calculateStreaks_store. cbn [progress].
  rewrite (completedDatesDesc_Permutation rows rows') by exact Hperm.
  reflexivity.
Qed.

(** C10. The calculator returns a pair in every case and nothing escapes
    its [try]: a rejected query, a query error and a null [data] all give
    (0, 0), the result on an empty history; on the rows of a successful
    query the body returns (it does not throw). *)
Theorem calculateStreaks_never_throws zone now (q : ProgressQuery) h u :
  calculateStreaks zone now (fun _ _ => Fulfilled (Pg.ok [])) h u
  = mkStreaks 0 0
  /\ match q h u with
     | Rejected => calculateStreaks zone now q h u = mkStreaks 0 0
     | Fulfilled r =>
       match Pg.error r, Pg.data r with
       | None, Some rows =>
         calculateStreaksBody zone now q h u =
         Return (calculateStreaks zone now q h u)
       | _, _ => calculateStreaks zone now q h u = mkStreaks 0 0
       end
     end.
Proof.
  split; [reflexivity|].
  pose proof (calculateStreaks_eq zone now q h u) as Heq.
  destruct (q h u) as [[[rows|] [e|]]|] eqn:Hq; cbn [Pg.error Pg.data] in *;
    try exact Heq.
  unfold calculateStreaks.
  rewrite (calculateStreaksBody_rows _ _ _ _ _ rows) by exact Hq.
  reflexivity.
Qed.

(** ** Times of day *)

Lemma setHours0_mono tz a b :
  a <= b -> setHours0 (fixedZone tz) a <= setHours0 (fixedZone tz) b.
Proof.
  intros Hab. rewrite !setHours0_fixed.
  assert ((a + tz) / MS_PER_DAY <= (b + tz) / MS_PER_DAY)
    by (apply Z.div_le_mono; [auto|lia]).
  pose proof MS_PER_DAY_pos. nia.
Qed.

Lemma completedDatesDesc_atMidnight tz (rows : list Progress.t) h u :
  completedDatesDesc (atMidnight (fixedZone tz) <$> rows) h u =
  selAtMidnight (fixedZone tz) <$> completedDatesDesc rows h u.
Proof.
  apply completedDatesDesc_unique.
  - eapply Sorted_fmap; [|apply completedDatesDesc_sorted].
    intros x y. unfold date_desc. cbn. apply setHours0_mono.
  - rewrite completedDatesDesc_perm.
    induction rows as [|r rows IH]; [reflexivity|].
    rewrite fmap_cons.
    destruct (decide (completedOf h u r)) as [Hr|Hr].
    + rewrite !filter_cons_True by exact Hr. rewrite !fmap_cons, IH.
      reflexivity.
    + rewrite !filter_cons_False by exact Hr. exact IH.
Qed.

Lemma currentWalk_atMidnight tz rest :
  forall prev cur,
    currentWalk (fixedZone tz) prev (selAtMidnight (fixedZone tz) <$> rest)
      cur =
    currentWalk (fixedZone tz) prev rest cur.
Proof.
  induction rest as [|r rest IH]; intros prev cur; [reflexivity|].
  cbn. rewrite setHours0_idem. case_bool_decide; [apply IH|reflexivity].
Qed.

(** X18. The first loop compares local midnights, so the current streak
    is that of the history moved to midnight, whatever the times of day
    of the stored dates. *)
Lemma currentStreak_atMidnight tz now hs (rows : list Progress.t) h u :
  currentStreak
    (calculateStreaks (fixedZone tz) now (supabaseOf (mkStore hs rows)) h u)
  =
  currentStreak
    (calculateStreaks (fixedZone tz) now
       (supabaseOf (mkStore hs (atMidnight (fixedZone tz) <$> rows))) h u).
Proof.
  rewrite !calculateStreaks_store. cbn [progress].
  rewrite completedDatesDesc_atMidnight.
  destruct (completedDatesDesc rows h u) as [|r rest]; [reflexivity|].
  cbn. rewrite setHours0_idem, currentWalk_atMidnight. reflexivity.
Qed.

Lemma longestWalk_atMidnight tz rest :
  forall prev temp longest,
    selDayGranular prev -> Forall selDayGranular rest ->
    longestWalk (setHours0 (fixedZone tz) (Sel.date prev))
      (selAtMidnight (fixedZone tz) <$> rest)
      temp longest =
    longestWalk (Sel.date prev) rest temp longest.
Proof.
  induction rest as [|r rest IH]; intros prev temp longest Hprev Hrest;
    [reflexivity|].
  apply Forall_cons in Hrest as [Hr Hrest].
  cbn. rewrite floorDays_granular by assumption.
  case_bool_decide; apply IH; assumption.
Qed.

(** X19. On a table of calendar dates the second loop's raw differences
    are whole days, and moving the dates to local midnight changes
    nothing: both streaks are those of the normalised table. *)
Lemma calculateStreaks_atMidnight tz now hs (rows : list Progress.t) h u :
  Forall dayGranular rows ->
  calculateStreaks (fixedZone tz) now (supabaseOf (mkStore hs rows)) h u =
  calculateStreaks (fixedZone tz) now
    (supabaseOf (mkStore hs (atMidnight (fixedZone tz) <$> rows))) h u.
Proof.
  intros Hrows. rewrite !calculateStreaks_store. cbn [progress].
  rewrite completedDatesDesc_atMidnight.
  pose proof (selDayGranular_completedDatesDesc rows h u Hrows) as Hsel.
  destruct (completedDatesDesc rows h u) as [|r rest]; [reflexivity|].
  apply Forall_cons in Hsel as [Hr Hrest].
  cbn. rewrite setHours0_idem, currentWalk_atMidnight.
  rewrite longestWalk_atMidnight by assumption. reflexivity.
Qed.

(** C6, as the code has it.  The second loop compares the raw dates: on
    [lateAndEarly], read at noon of day 11 in UTC, the calculator returns
    current 2 and longest 1, while on the same history moved to midnight
    it returns current 2 and longest 2. *)
Theorem longest_scan_keeps_time_of_day :
  let now := ofDateString 11 + 12 * 3600000 in
  calculateStreaks (fixedZone 0) now (supabaseOf (mkStore [] lateAndEarly))
    "h" "u"
  = mkStreaks 2 1
  /\ calculateStreaks (fixedZone 0) now
       (supabaseOf (mkStore [] (atMidnight (fixedZone 0) <$> lateAndEarly)))
       "h" "u"
     = mkStreaks 2 2.
Proof. split; vm_compute; reflexivity. Qed.

(** ** Witnesses *)

(** [threeDays] and its reversal give the same streaks. *)
Lemma streaks_order_independent_witness :
  Permutation threeDays (reverse threeDays)
  /\ calculateStreaks (fixedZone 0) (ofDateString 7)
       (supabaseOf (mkStore [] threeDays)) "h" "u" =
     calculateStreaks (fixedZone 0) (ofDateString 7)
       (supabaseOf (mkStore [] (reverse threeDays))) "h" "u".
Proof.
  assert (Permutation threeDays (reverse threeDays)) as Hperm.
  { simpl. apply (Permutation_rev [_; _; _]). }
  split; [exact Hperm|].
  apply (streaks_order_independent (fixedZone 0) (ofDateString 7) [] threeDays
           (reverse threeDays) "h" "u" Hperm).
Defined.

(** ** The completion toggle *)

Section ListFacts.
Context {A K : Type} (f : A -> K).

(** With unique keys, a filter that fixes the key selects one row. *)
Lemma filter_key_singleton (P : A -> Prop) `{!forall x, Decision (P x)}
    (l : list A) x k :
  NoDup (f <$> l) -> (forall y, P y -> f y = k) ->
  x ∈ l -> P x -> filter P l = [x].
Proof.
  intros Hnd Hkey. induction l as [|a l IH]; intros Hx HP.
  { inversion Hx. }
  rewrite fmap_cons in Hnd. apply NoDup_cons in Hnd as [Ha Hnd].
  assert (forall y, y ∈ l -> P y -> f a <> k) as Hother.
  { intros y Hy HPy Hfa. apply Ha. rewrite Hfa, <- (Hkey y HPy).
    apply list_elem_of_fmap_2, Hy. }
  apply elem_of_cons in Hx as [->|Hx].
  - rewrite filter_cons_True by exact HP. f_equal.
    destruct (filter P l) as [|y ys] eqn:Hf; [reflexivity|].
    assert (y ∈ filter P l) as Hy by (rewrite Hf; left).
    apply list_elem_of_filter in Hy as [HPy Hy].
    exfalso. apply (Hother y Hy HPy). apply Hkey, HP.
  - rewrite filter_cons_False; [apply IH; assumption|].
    intros HPa. apply (Hother x Hx HP). apply Hkey, HPa.
Qed.

(** With unique keys, an update by key changes one position. *)
Lemma fmap_update_key (g : A -> A) (l : list A) (i : nat) x :
  NoDup (f <$> l) -> l !! i = Some x ->
  (forall y, f y <> f x -> g y = y) ->
  g <$> l = <[i := g x]> l.
Proof.
  intros Hnd Hi Hg. apply list_eq. intros j.
  rewrite list_lookup_fmap. destruct (decide (i = j)) as [<-|Hij].
  - rewrite list_lookup_insert_eq by (eapply lookup_lt_Some, Hi).
    rewrite Hi. reflexivity.
  - rewrite list_lookup_insert_ne by exact Hij.
    destruct (l !! j) as [y|] eqn:Hj; [|reflexivity].
    cbn. f_equal. apply Hg. intros Hfy. apply Hij.
    apply (NoDup_lookup (f <$> l) i j (f x)); [exact Hnd| |].
    + rewrite list_lookup_fmap, Hi. reflexivity.
    + rewrite list_lookup_fmap, Hj. cbn. congruence.
Qed.
End ListFacts.

Lemma filter_none {A} (P : A -> Prop) `{!forall x, Decision (P x)}
    (l : list A) :
  Forall (fun x => ~ P x) l -> filter P l = [].
Proof.
  induction 1 as [|x l Hx _ IH]; [reflexivity|].
  rewrite filter_cons_False by exact Hx. exact IH.
Qed.

Lemma freshId_gt (rows : list Progress.t) r :
  r ∈ rows -> Progress.id r < freshId rows.
Proof.
  unfold freshId. induction rows as [|a rows IH]; intros Hr.
  { inversion Hr. }
  cbn. apply elem_of_cons in Hr as [->|Hr]; [lia|].
  specialize (IH Hr). lia.
Qed.

Lemma freshId_fresh (rows : list Progress.t) :
  freshId rows ∉ Progress.id <$> rows.
Proof.
  intros Hin. apply list_elem_of_fmap in Hin as (r & Hid & Hr).
  apply freshId_gt in Hr. lia.
Qed.

(** *** The recomputation of the habit's statistics *)

Lemma updateHabit_id h u st n now x :
  Habit.id (updateHabit h u st n now x) = Habit.id x.
Proof. unfold updateHabit. case_bool_decide; reflexivity. Qed.

Lemma updateHabit_user_id h u st n now x :
  Habit.user_id (updateHabit h u st n now x) = Habit.user_id x.
Proof. unfold updateHabit. case_bool_decide; reflexivity. Qed.

Lemma habitOf_updateHabit k v h u st n now x :
  habitOf k v (updateHabit h u st n now x) <-> habitOf k v x.
Proof.
  unfold habitOf. rewrite updateHabit_id, updateHabit_user_id. reflexivity.
Qed.

Lemma progress_updateHabitStats zone now f s h u :
  progress (updateHabitStats zone now f s h u) = progress s.
Proof. unfold updateHabitStats. destruct (habitUpdateFails f); reflexivity. Qed.

Lemma StoreInv_updateHabitStats zone now f s h u :
  StoreInv s -> StoreInv (updateHabitStats zone now f s h u).
Proof.
  intros [Hpid Hhid Hown Hday Hone]. unfold updateHabitStats.
  destruct (habitUpdateFails f); [constructor; assumption|].
  set (g := updateHabit h u _ _ now).
  constructor; cbn [habits progress]; try assumption.
  - rewrite <- list_fmap_compose.
    rewrite (list_fmap_ext (Habit.id ∘ g) Habit.id (habits s)); [assumption|].
    intros i x _. apply updateHabit_id.
  - eapply Forall_impl; [exact Hown|]. intros r. unfold owned.
    rewrite Exists_fmap. intros Hex.
    eapply Exists_impl; [exact Hex|]. intros x Hx.
    apply habitOf_updateHabit, Hx.
Qed.

(** *** The habit lookup *)

Lemma habit_found s h u :
  NoDup (Habit.id <$> habits s) ->
  Exists (habitOf h u) (habits s) ->
  Pg.single (Habit.id <$> filter (habitOf h u) (habits s)) = Pg.ok h.
Proof.
  intros Hnd Hex. apply Exists_exists in Hex as (x & Hx & Hh).
  rewrite (filter_key_singleton Habit.id (habitOf h u) (habits s) x h Hnd);
    [|intros y [Hy _]; exact Hy|exact Hx|exact Hh].
  destruct Hh as [<- _]. reflexivity.
Qed.

Lemma habit_not_found s h u :
  ~ Exists (habitOf h u) (habits s) ->
  Pg.single (Habit.id <$> filter (habitOf h u) (habits s)) =
  Pg.fail Pg.NotSingle.
Proof.
  intros Hnex. rewrite filter_none; [reflexivity|].
  apply Forall_forall. intros x Hx Hh. apply Hnex.
  apply Exists_exists. eauto.
Qed.

(** *** The lookup of the day's record *)

Lemma progressOn_onDay u h day r : progressOn u h day r -> onDay h day r.
Proof.
  intros (_ & Hh & Hd). split; [exact Hh|].
  unfold recordDay. rewrite Hd. apply isoDateString_ofDateString.
Qed.

(** Under the invariant a record of the habit on the day is the record
    the handler's lookup finds: it belongs to the habit's owner and its
    date is the [dateString]. *)
Lemma onDay_progressOn s u h day r :
  StoreInv s -> Exists (habitOf h u) (habits s) ->
  r ∈ progress s -> onDay h day r -> progressOn u h day r.
Proof.
  intros [_ Hhid Hown Hday _] Hex Hr [Hh Hd].
  apply Exists_exists in Hex as (x & Hx & Hxh & Hxu).
  rewrite Forall_forall in Hown, Hday.
  specialize (Hown r Hr). specialize (Hday r Hr).
  apply Exists_exists in Hown as (y & Hy & Hyh & Hyu).
  assert (x = y) as ->.
  { apply list_elem_of_lookup in Hx as [i Hi], Hy as [j Hj].
    assert (i = j) as ->; [|congruence].
    apply (NoDup_lookup (Habit.id <$> habits s) i j h); [exact Hhid| |];
      rewrite list_lookup_fmap; [rewrite Hi|rewrite Hj]; cbn; congruence. }
  repeat split; [congruence|exact Hh|].
  unfold dayGranular in Hday. congruence.
Qed.

Lemma existing_found s u h day r :
  StoreInv s -> Exists (habitOf h u) (habits s) ->
  r ∈ progress s -> onDay h day r ->
  Pg.single (filter (progressOn u h day) (progress s)) = Pg.ok r.
Proof.
  intros Hinv Hex Hr Hon.
  rewrite (filter_key_singleton habitDay (progressOn u h day) (progress s)
             r (h, day)); [reflexivity|apply Hinv| |exact Hr|].
  - intros y Hy. apply progressOn_onDay in Hy as [Hh Hd].
    unfold habitDay. congruence.
  - eapply onDay_progressOn; eassumption.
Qed.

Lemma existing_not_found s u h day :
  Forall (fun r => ~ onDay h day r) (progress s) ->
  Pg.single (filter (progressOn u h day) (progress s)) =
  Pg.fail Pg.NotSingle.
Proof.
  intros Hnone. rewrite filter_none; [reflexivity|].
  eapply Forall_impl; [exact Hnone|].
  intros r Hr Hon. apply Hr. eapply progressOn_onDay, Hon.
Qed.

(** *** The two branches of the handler *)

Lemma updateProgress_flipped now req r :
  updateProgress (Progress.id r) (negb (Progress.completed r))
    (default (Progress.notes r) (body_notes req)) now r = flipped now req r.
Proof.
  unfold updateProgress. rewrite bool_decide_eq_true_2 by reflexivity.
  reflexivity.
Qed.

Lemma fmap_insert_same {A B} (f : A -> B) (l : list A) (i : nat) x y :
  l !! i = Some x -> f y = f x -> f <$> <[i := y]> l = f <$> l.
Proof.
  intros Hi Hf. rewrite list_fmap_insert, Hf. apply list_insert_id.
  rewrite list_lookup_fmap, Hi. reflexivity.
Qed.

Lemma StoreInv_flipped now req s (i : nat) r :
  StoreInv s -> progress s !! i = Some r ->
  StoreInv (mkStore (habits s) (<[i := flipped now req r]> (progress s))).
Proof.
  intros [Hpid Hhid Hown Hday Hone] Hi.
  assert (r ∈ progress s) as Hr by (eapply list_elem_of_lookup_2, Hi).
  rewrite Forall_forall in Hown, Hday.
  constructor; cbn [habits progress].
  - rewrite (fmap_insert_same Progress.id _ _ r) by (exact Hi || reflexivity).
    exact Hpid.
  - exact Hhid.
  - apply Forall_insert; [apply Forall_forall, Hown|]. apply (Hown r Hr).
  - apply Forall_insert; [apply Forall_forall, Hday|]. apply (Hday r Hr).
  - rewrite (fmap_insert_same habitDay _ _ r) by (exact Hi || reflexivity).
    exact Hone.
Qed.

Lemma StoreInv_created day now s req :
  StoreInv s -> accepted s req ->
  Forall (fun r => ~ onDay (body_habitId req) day r) (progress s) ->
  StoreInv (mkStore (habits s) (progress s ++ [created day now s req])).
Proof.
  intros [Hpid Hhid Hown Hday Hone] [_ Hex] Hnone.
  constructor; cbn [habits progress].
  - rewrite fmap_app. apply NoDup_app. split; [exact Hpid|]. split.
    + intros x Hx Hin. apply list_elem_of_singleton in Hin. subst x.
      apply (freshId_fresh (progress s)), Hx.
    + apply NoDup_singleton.
  - exact Hhid.
  - apply Forall_app. split; [exact Hown|]. repeat constructor. exact Hex.
  - apply Forall_app. split; [exact Hday|]. repeat constructor.
    unfold dayGranular, recordDay. cbn.
    rewrite isoDateString_ofDateString. reflexivity.
  - rewrite fmap_app. apply NoDup_app. split; [exact Hone|]. split.
    + intros k Hk Hin. apply list_elem_of_singleton in Hin. subst k.
      apply list_elem_of_fmap in Hk as (r & Hkey & Hr).
      rewrite Forall_forall in Hnone. apply (Hnone r Hr).
      unfold habitDay, recordDay in Hkey. cbn in Hkey.
      rewrite isoDateString_ofDateString in Hkey.
      injection Hkey as Hh Hd. split; [congruence|].
      unfold recordDay. congruence.
    + apply NoDup_singleton.
Qed.

Lemma postToggle_existing zone now s req day (i : nat) r :
  StoreInv s -> accepted s req ->
  toggleDay zone req = Some day ->
  progress s !! i = Some r ->
  onDay (body_habitId req) day r ->
  postToggle zone now noFaults s req =
  (updateHabitStats zone now noFaults
     (mkStore (habits s) (<[i := flipped now req r]> (progress s)))
     (body_habitId req) (req_userId req),
   Json (Some (flipped now req r))).
Proof.
  intros Hinv [Hval Hex] Hday Hi Hon. unfold toggleDay in Hday.
  assert (r ∈ progress s) as Hr by (eapply list_elem_of_lookup_2, Hi).
  unfold postToggle. rewrite Hval.
  rewrite bool_decide_eq_true_2 by reflexivity. cbn [negb].
  cbn [answer noFaults habitLookupFails progressLookupFails
         progressUpdateFails progressInsertFails].
  rewrite habit_found by (apply Hinv || exact Hex).
  cbn [Pg.ok Pg.error Pg.data]. rewrite Hday.
  rewrite (existing_found s _ _ _ r) by assumption.
  cbn [Pg.ok Pg.error Pg.data].
  rewrite (fmap_update_key Progress.id _ (progress s) i r);
    [|apply Hinv|exact Hi|].
  2:{ intros y Hy. unfold updateProgress.
      rewrite bool_decide_eq_false_2 by exact Hy. reflexivity. }
  rewrite updateProgress_flipped.
  rewrite (filter_key_singleton Progress.id _ _ (flipped now req r)
             (Progress.id r)).
  - reflexivity.
  - rewrite (fmap_insert_same Progress.id _ _ r) by (exact Hi || reflexivity).
    apply Hinv.
  - intros y Hy. exact Hy.
  - eapply list_elem_of_lookup_2. apply list_lookup_insert_eq.
    eapply lookup_lt_Some, Hi.
  - reflexivity.
Qed.

Lemma postToggle_new zone now s req day :
  StoreInv s -> accepted s req ->
  toggleDay zone req = Some day ->
  Forall (fun r => ~ onDay (body_habitId req) day r) (progress s) ->
  postToggle zone now noFaults s req =
  (updateHabitStats zone now noFaults
     (mkStore (habits s) (progress s ++ [created day now s req]))
     (body_habitId req) (req_userId req),
   Json (Some (created day now s req))).
Proof.
  intros Hinv [Hval Hex] Hday Hnone. unfold toggleDay in Hday.
  unfold postToggle. rewrite Hval.
  rewrite bool_decide_eq_true_2 by reflexivity. cbn [negb].
  cbn [answer noFaults habitLookupFails progressLookupFails
         progressUpdateFails progressInsertFails].
  rewrite habit_found by (apply Hinv || exact Hex).
  cbn [Pg.ok Pg.error Pg.data]. rewrite Hday.
  rewrite existing_not_found by exact Hnone.
  reflexivity.
Qed.

Lemma postToggle_refused zone now f s req :
  ~ accepted s req -> (postToggle zone now f s req).1 = s.
Proof.
  intros Hrefused. unfold postToggle.
  case_bool_decide as Hval; cbn [negb]; [|reflexivity].
  unfold answer. destruct (habitLookupFails f); [reflexivity|].
  rewrite habit_not_found; [reflexivity|].
  intros Hex. apply Hrefused. split; assumption.
Qed.

(** A request that passes validation and names a habit of its user, but
    whose date is no valid time value: nothing is written. *)
Lemma postToggle_invalid_date zone now s req :
  StoreInv s -> accepted s req -> toggleDay zone req = None ->
  postToggle zone now noFaults s req = (s, Status 500 "Internal server error").
Proof.
  intros Hinv [Hval Hex] Hday. unfold toggleDay in Hday.
  unfold postToggle. rewrite Hval.
  rewrite bool_decide_eq_true_2 by reflexivity. cbn [negb].
  cbn [answer noFaults habitLookupFails].
  rewrite habit_found by (apply Hinv || exact Hex).
  cbn [Pg.ok Pg.error Pg.data]. rewrite Hday. reflexivity.
Qed.

(** *** The toggle when every store call succeeds *)

(** X22. On a store that satisfies the invariant (unique ids, every
    progress row owned by its habit's user, dates without a time of day,
    at most one record per habit and calendar day), and when no store call
    reports an error, a toggle request leaves the invariant in force; a
    refused request and a request with an invalid date change nothing;
    an accepted request whose [dateString] is a day without a record of
    the habit appends exactly one record, with [completed = true], and
    one whose [dateString] is a day with a record negates that record's
    flag in place. *)
Theorem toggle_without_faults zone now s req :
  StoreInv s ->
  let h := body_habitId req in
  let s' := (postToggle zone now noFaults s req).1 in
  StoreInv s'
  /\ (~ accepted s req -> s' = s)
  /\ (accepted s req -> toggleDay zone req = None -> s' = s)
  /\ (forall day,
        accepted s req -> toggleDay zone req = Some day ->
        (Forall (fun r => ~ onDay h day r) (progress s) ->
         progress s' = progress s ++ [created day now s req]
         /\ onDay h day (created day now s req)
         /\ Progress.completed (created day now s req) = true)
        /\ (forall (i : nat) r,
              progress s !! i = Some r -> onDay h day r ->
              progress s' = <[i := flipped now req r]> (progress s)
              /\ onDay h day (flipped now req r)
              /\ Progress.completed (flipped now req r) =
                 negb (Progress.completed r))).
Proof.
  intros Hinv h s'. subst h s'.
  assert (forall day (acc : accepted s req),
            toggleDay zone req = Some day ->
            Forall (fun r => ~ onDay (body_habitId req) day r) (progress s) ->
            (postToggle zone now noFaults s req).1 =
            updateHabitStats zone now noFaults
              (mkStore (habits s) (progress s ++ [created day now s req]))
              (body_habitId req) (req_userId req)) as Hnew.
  { intros day Hacc Hday Hnone.
    rewrite (postToggle_new zone now s req day) by assumption.
    reflexivity. }
  assert (forall day (acc : accepted s req) (i : nat) r,
            toggleDay zone req = Some day ->
            progress s !! i = Some r ->
            onDay (body_habitId req) day r ->
            (postToggle zone now noFaults s req).1 =
            updateHabitStats zone now noFaults
              (mkStore (habits s) (<[i := flipped now req r]> (progress s)))
              (body_habitId req) (req_userId req)) as Hold.
  { intros day Hacc i r Hday Hi Hon.
    rewrite (postToggle_existing zone now s req day i r) by assumption.
    reflexivity. }
  split; [|split; [|split]].
  - destruct (decide (accepted s req)) as [Hacc|Hrefused].
    + destruct (toggleDay zone req) as [day|] eqn:Hday.
      * destruct (decide (Exists (onDay (body_habitId req) day)
                            (progress s))) as [Hex|Hnone].
        -- apply Exists_exists in Hex as (r & Hr & Hon).
           apply list_elem_of_lookup in Hr as [i Hi].
           rewrite (Hold day Hacc i r eq_refl Hi Hon).
           apply StoreInv_updateHabitStats, StoreInv_flipped; assumption.
        -- assert (Forall (fun r => ~ onDay (body_habitId req) day r)
                     (progress s)) as Hnone'.
           { apply Forall_forall. intros r Hr Hon. apply Hnone.
             apply Exists_exists. eauto. }
           rewrite (Hnew day Hacc eq_refl Hnone').
           apply StoreInv_updateHabitStats, StoreInv_created; assumption.
      * rewrite postToggle_invalid_date by assumption. exact Hinv.
    + rewrite postToggle_refused by exact Hrefused. exact Hinv.
  - apply postToggle_refused.
  - intros Hacc Hday. rewrite postToggle_invalid_date by assumption.
    reflexivity.
  - intros day Hacc Hday. split.
    + intros Hnone. rewrite (Hnew day Hacc Hday Hnone).
      rewrite progress_updateHabitStats.
      split; [reflexivity|]. split; [|reflexivity]. split; [reflexivity|].
      unfold recordDay. cbn. apply isoDateString_ofDateString.
    + intros i r Hi Hon. rewrite (Hold day Hacc i r Hday Hi Hon).
      rewrite progress_updateHabitStats.
      split; [reflexivity|]. split; [exact Hon|reflexivity].
Qed.

(** On [demoStore], the owner's request for day 7 negates the flag of the
    record of day 7 (the second row) and keeps the invariant. *)
Lemma toggle_without_faults_witness :
  let now := ofDateString 7 + 12 * MS_PER_HOUR in
  let req := demoRequest 7 in
  let s' := (postToggle (fixedZone 0) now noFaults demoStore req).1 in
  StoreInv demoStore
  /\ accepted demoStore req
  /\ StoreInv s'
  /\ progress s' =
     <[1%nat := flipped now req (completedRow 2 "u" "h" 7)]>
       (progress demoStore).
Proof.
  intros now req s'.
  assert (StoreInv demoStore) as Hinv.
  { constructor; apply (bool_decide_unpack _); vm_compute; exact I. }
  assert (accepted demoStore req) as Hacc.
  { split; [reflexivity|]. apply (bool_decide_unpack _). vm_compute. exact I. }
  assert (toggleDay (fixedZone 0) req = Some 7) as Hday.
  { vm_compute. reflexivity. }
  assert (onDay (body_habitId req) 7 (completedRow 2 "u" "h" 7)) as Hon.
  { apply (bool_decide_unpack _). vm_compute. exact I. }
  destruct (toggle_without_faults (fixedZone 0) now demoStore req Hinv)
    as (Hinv' & _ & _ & Htoggle).
  destruct (Htoggle 7 Hacc Hday) as [_ Hflip].
  destruct (Hflip 1%nat (completedRow 2 "u" "h" 7) eq_refl Hon) as [Heq _].
  split; [exact Hinv|]. split; [exact Hacc|]. split; [exact Hinv'|exact Heq].
Defined.

(** C9, as the code has it.  The handler takes the insert branch
    whenever the lookup of the day's record reports an error, also when
    the record exists: on [demoStore], which holds one record of habit
    ["h"] for day 7, a request for day 7 whose lookup fails appends a
    second record for day 7, and the table then holds two records for
    one habit and calendar day.  And one hour east of UTC a request for
    the date-only day 8, a day without a record, creates no record: its
    [dateString] is day 7, and the flag of the record of day 7 is
    negated. *)
Theorem toggle_duplicates_day :
  let now := ofDateString 7 + 12 * MS_PER_HOUR in
  let req := demoRequest 7 in
  let s' := (postToggle (fixedZone 0) now lookupFails demoStore req).1 in
  let req8 := mkToggleRequest "u" [] "h" (Some (ofDateString 8)) None in
  let s8 := (postToggle (fixedZone MS_PER_HOUR) now noFaults demoStore req8).1
  in
  StoreInv demoStore
  /\ accepted demoStore req
  /\ filter (onDay "h" 7) (progress demoStore) = [completedRow 2 "u" "h" 7]
  /\ progress s' = progress demoStore ++ [created 7 now demoStore req]
  /\ filter (onDay "h" 7) (progress s') =
     [completedRow 2 "u" "h" 7; created 7 now demoStore req]
  /\ ~ NoDup (habitDay <$> progress s')
  /\ ~ StoreInv s'
  /\ accepted demoStore req8
  /\ filter (onDay "h" 8) (progress demoStore) = []
  /\ progress s8 =
     <[1%nat := flipped now req8 (completedRow 2 "u" "h" 7)]>
       (progress demoStore).
Proof.
  intros now req s' req8 s8.
  assert (~ NoDup (habitDay <$> progress s')) as Hdup.
  { apply (bool_decide_unpack _). vm_compute. exact I. }
  split. { constructor; apply (bool_decide_unpack _); vm_compute; exact I. }
  split. { split; [reflexivity|]. apply (bool_decide_unpack _).
           vm_compute. exact I. }
  split; [vm_compute; reflexivity|].
  split; [vm_compute; reflexivity|].
  split; [vm_compute; reflexivity|].
  split; [exact Hdup|].
  split. { intros [_ _ _ _ Hone]. exact (Hdup Hone). }
  split. { split; [reflexivity|]. apply (bool_decide_unpack _).
           vm_compute. exact I. }
  split; vm_compute; reflexivity.
Qed.

(** * Further properties of the progress routes *)

(** ** Streaks and the number of completions *)

Lemma currentWalk_le zone rest :
  forall prev cur,
    currentWalk zone prev rest cur <= cur + Z.of_nat (length rest).
Proof.
  induction rest as [|r rest IH]; intros prev cur; cbn [currentWalk length];
    [lia|].
  case_bool_decide; [|lia].
  specialize (IH (setHours0 zone (Sel.date r)) (cur + 1)). lia.
Qed.

Lemma longestWalk_le rest :
  forall prev temp longest,
    1 <= temp ->
    longestWalk prev rest temp longest <=
    Z.max longest (temp + Z.of_nat (length rest)).
Proof.
  induction rest as [|r rest IH]; intros prev temp longest Htemp;
    cbn [longestWalk length]; [lia|].
  case_bool_decide.
  - specialize (IH (Sel.date r) (temp + 1) (Z.max longest (temp + 1))). lia.
  - specialize (IH (Sel.date r) 1 longest). lia.
Qed.

Lemma streaksOfRows_le_length zone now rows :
  let n := Z.of_nat (length rows) in
  0 <= currentStreak (streaksOfRows zone now rows) <= n
  /\ Z.min 1 n <= longestStreak (streaksOfRows zone now rows) <= n.
Proof.
  destruct rows as [|r rest]; [cbn; lia|].
  cbn [streaksOfRows currentStreak longestStreak currentScan longestScan
       length].
  set (d := setHours0 zone (Sel.date r)).
  set (g := if _ || _ then 1 else 0).
  assert (0 <= g <= 1) as Hg by (subst g; destruct (_ || _); lia).
  pose proof (currentWalk_ge zone rest d g).
  pose proof (currentWalk_le zone rest d g).
  pose proof (longestWalk_ge rest (Sel.date r) 1 1).
  pose proof (longestWalk_le rest (Sel.date r) 1 1 ltac:(lia)).
  lia.
Qed.

Lemma length_completedDatesDesc s h u :
  Z.of_nat (length (completedDatesDesc (progress s) h u)) = completions s h u.
Proof.
  unfold completions. f_equal.
  rewrite (Permutation_length (completedDatesDesc_perm (progress s) h u)).
  apply length_fmap.
Qed.

(** X1. Neither streak exceeds the number of completed rows of the habit,
    whatever their dates (with or without a time of day), and with at
    least one completed row the longest streak is at least 1. *)
Theorem streaks_le_completions zone now s h u :
  let st := calculateStreaks zone now (supabaseOf s) h u in
  0 <= currentStreak st <= completions s h u
  /\ Z.min 1 (completions s h u) <= longestStreak st <= completions s h u.
Proof.
  intros st. subst st. rewrite calculateStreaks_store.
  rewrite <- length_completedDatesDesc. apply streaksOfRows_le_length.
Qed.

(** ** A run of consecutive days *)

Lemma Sorted_runDays n : forall last, Sorted (flip Z.le) (runDays last n).
Proof.
  induction n as [|n IH]; intros last; cbn; constructor; [apply IH|].
  destruct n; cbn; constructor. unfold flip. lia.
Qed.

Lemma currentWalk_run tz n :
  forall d cur,
    currentWalk (fixedZone tz) (setHours0 (fixedZone tz) (ofDateString d))
      (selDay <$> runDays (d - 1) n) cur = cur + Z.of_nat n.
Proof.
  induction n as [|n IH]; intros d cur; [cbn; lia|].
  cbn [runDays fmap list_fmap currentWalk selDay Sel.date].
  rewrite floorDays_days.
  rewrite bool_decide_eq_true_2 by lia.
  fold (selDay (d - 1)). rewrite (IH (d - 1) (cur + 1)). lia.
Qed.

Lemma longestWalk_run n :
  forall d temp longest,
    temp <= longest ->
    longestWalk (ofDateString d) (selDay <$> runDays (d - 1) n) temp longest
    = Z.max longest (temp + Z.of_nat n).
Proof.
  induction n as [|n IH]; intros d temp longest Hle; [cbn; lia|].
  cbn [runDays fmap list_fmap longestWalk selDay Sel.date].
  rewrite floorDays_ofDateString.
  rewrite bool_decide_eq_true_2 by lia.
  rewrite (IH (d - 1) (temp + 1) (Z.max longest (temp + 1))) by lia. lia.
Qed.

(** X2. On a server with a constant UTC offset: a history of [n + 1]
    consecutive calendar dates ending at the date [last] has longest
    streak [n + 1]; with [k] the calculator's [daysDiff] of the most
    recent row (the whole days from the local midnight of [last], parsed
    as UTC, to the local midnight of the clock), its current streak is
    [n + 1] when [k] is 0 or 1 and [n] otherwise: a stale (or future)
    most recent date only loses the first day of the run, the pairs
    after it are still counted.  In UTC and east of it (by less than a
    day) [k] is the number of days from [last] to the local date of the
    clock; west of UTC it is one more. *)
Theorem consecutive_run_streaks tz now hs u h i (n : nat) last :
  let k :=
    floorDays (setHours0 (fixedZone tz) now)
      (setHours0 (fixedZone tz) (ofDateString last)) in
  calculateStreaks (fixedZone tz) now
    (supabaseOf
       (mkStore hs (completedOn u h i (reverse (runDays last (S n))))))
    h u
  = mkStreaks ((if bool_decide (k = 0 \/ k = 1) then 1 else 0) + Z.of_nat n)
      (1 + Z.of_nat n)
  /\ (0 <= tz < MS_PER_DAY -> k = localDay (fixedZone tz) now - last)
  /\ (- MS_PER_DAY < tz < 0 -> k = localDay (fixedZone tz) now - last + 1).
Proof.
  intros k. subst k. rewrite floorDays_today.
  split; [|split].
  - rewrite calculateStreaks_store. cbn [progress].
    rewrite (completedDatesDesc_completedOn u h i _ (runDays last (S n)));
      [|apply Sorted_runDays|symmetry; apply reverse_Permutation].
    cbn [runDays fmap list_fmap streaksOfRows currentScan longestScan selDay
         Sel.date].
    rewrite floorDays_today.
    fold (selDay last).
    rewrite currentWalk_run, longestWalk_run by lia.
    f_equal; [|lia].
    f_equal. repeat case_bool_decide; try reflexivity; lia.
  - intros Htz. rewrite localDay_fixed. unfold todayDay.
    change MS_PER_DAY with 86400000 in *. Z.div_mod_to_equations. lia.
  - intros Htz. rewrite localDay_fixed. unfold todayDay.
    change MS_PER_DAY with 86400000 in *. Z.div_mod_to_equations. lia.
Qed.

(** ** More on the completion toggle *)

(** When no store call fails the recomputation writes the calculator's
    result and the number of completed rows into the habit row. *)
Lemma updateHabitStats_noFaults zone now s h u :
  updateHabitStats zone now noFaults s h u =
  mkStore
    (updateHabit h u (calculateStreaks zone now (supabaseOf s) h u)
       (Z.of_nat
          (length (Progress.id <$> filter (completedOf h u) (progress s))))
       now <$> habits s)
    (progress s).
Proof. reflexivity. Qed.

Lemma Exists_habitOf_updateHabitStats zone now f s h u k v :
  Exists (habitOf k v) (habits (updateHabitStats zone now f s h u)) <->
  Exists (habitOf k v) (habits s).
Proof.
  unfold updateHabitStats. destruct (habitUpdateFails f); [reflexivity|].
  cbn [habits]. rewrite Exists_fmap.
  split; intros Hex; (eapply Exists_impl; [exact Hex|]); intros x Hx;
    cbn in *; apply habitOf_updateHabit in Hx || apply habitOf_updateHabit;
    exact Hx.
Qed.

Lemma accepted_updateHabitStats zone now f s h u req :
  accepted (updateHabitStats zone now f s h u) req <->
  accepted (mkStore (habits s) (progress s)) req.
Proof.
  unfold accepted. rewrite Exists_habitOf_updateHabitStats. reflexivity.
Qed.

(** X3. A request that fails validation, or that names a habit which is
    not a habit of the requesting user (unknown id, or another user's
    habit), is answered 400 resp. 404 and writes nothing. *)
Theorem toggle_refused_writes_nothing zone now f s req :
  ~ accepted s req ->
  postToggle zone now f s req =
  (s, if bool_decide (req_validationErrors req = [])
      then Status 404 "Habit not found"
      else Status 400 "Validation failed").
Proof.
  intros Hrefused. unfold postToggle.
  case_bool_decide as Hval; cbn [negb]; [|reflexivity].
  unfold answer. destruct (habitLookupFails f); [reflexivity|].
  rewrite habit_not_found; [reflexivity|].
  intros Hex. apply Hrefused. split; assumption.
Qed.

(** Another user's request for the habit of [demoStore]. *)
Lemma toggle_refused_writes_nothing_witness :
  ~ accepted demoStore
      (mkToggleRequest "v" [] "h" (Some (ofDateString 7)) None)
  /\ postToggle (fixedZone 0) (ofDateString 7) noFaults demoStore
       (mkToggleRequest "v" [] "h" (Some (ofDateString 7)) None)
     = (demoStore, Status 404 "Habit not found").
Proof.
  assert (~ accepted demoStore
              (mkToggleRequest "v" [] "h" (Some (ofDateString 7)) None))
    as Hrefused.
  { intros [_ Hex]. revert Hex. apply (bool_decide_unpack _).
    vm_compute. exact I. }
  split; [exact Hrefused|].
  apply (toggle_refused_writes_nothing (fixedZone 0) (ofDateString 7)
           noFaults demoStore
           (mkToggleRequest "v" [] "h" (Some (ofDateString 7)) None)
           Hrefused).
Defined.

Lemma postToggle_existing_store zone now s req day (i : nat) r :
  StoreInv s -> accepted s req ->
  toggleDay zone req = Some day ->
  progress s !! i = Some r ->
  onDay (body_habitId req) day r ->
  (postToggle zone now noFaults s req).1 =
  updateHabitStats zone now noFaults
    (mkStore (habits s) (<[i := flipped now req r]> (progress s)))
    (body_habitId req) (req_userId req).
Proof.
  intros. rewrite (postToggle_existing zone now s req day i r) by assumption.
  reflexivity.
Qed.

Lemma postToggle_new_store zone now s req day :
  StoreInv s -> accepted s req ->
  toggleDay zone req = Some day ->
  Forall (fun r => ~ onDay (body_habitId req) day r) (progress s) ->
  (postToggle zone now noFaults s req).1 =
  updateHabitStats zone now noFaults
    (mkStore (habits s) (progress s ++ [created day now s req]))
    (body_habitId req) (req_userId req).
Proof.
  intros. rewrite (postToggle_new zone now s req day) by assumption.
  reflexivity.
Qed.

(** The two cases of a day: it has a record of the habit, at some
    position, or it has none. *)
Lemma day_cases s h day :
  (exists (i : nat) r, progress s !! i = Some r /\ onDay h day r)
  \/ Forall (fun r => ~ onDay h day r) (progress s).
Proof.
  destruct (decide (Exists (onDay h day) (progress s))) as [Hex|Hnone].
  - left. apply Exists_exists in Hex as (r & Hr & Hon).
    apply list_elem_of_lookup in Hr as [i Hi]. eauto.
  - right. apply Forall_forall. intros r Hr Hon. apply Hnone.
    apply Exists_exists. eauto.
Qed.

(** The store after a toggle satisfies the invariant and accepts the
    same requests. *)
Lemma postToggle_keeps zone now s req :
  StoreInv s -> accepted s req ->
  StoreInv (postToggle zone now noFaults s req).1 /\
  accepted (postToggle zone now noFaults s req).1 req.
Proof.
  intros Hinv Hacc.
  destruct (toggleDay zone req) as [day|] eqn:Hday.
  - destruct (day_cases s (body_habitId req) day)
      as [(i & r & Hi & Hon)|Hnone].
    + rewrite (postToggle_existing_store zone now s req day i r)
        by assumption.
      split.
      * apply StoreInv_updateHabitStats, StoreInv_flipped; assumption.
      * apply accepted_updateHabitStats. exact Hacc.
    + rewrite (postToggle_new_store zone now s req day) by assumption.
      split.
      * apply StoreInv_updateHabitStats, StoreInv_created; assumption.
      * apply accepted_updateHabitStats. exact Hacc.
  - rewrite postToggle_invalid_date by assumption. split; assumption.
Qed.


(** An accepted toggle ends with the recomputation of the habit's
    statistics on a store that satisfies the invariant. *)
Lemma postToggle_accepted_shape zone now s req day :
  StoreInv s -> accepted s req ->
  toggleDay zone req = Some day ->
  exists s1,
    habits s1 = habits s /\ StoreInv s1 /\
    (postToggle zone now noFaults s req).1 =
    updateHabitStats zone now noFaults s1 (body_habitId req) (req_userId req).
Proof.
  intros Hinv Hacc Hday.
  destruct (day_cases s (body_habitId req) day)
    as [(i & r & Hi & Hon)|Hnone].
  - eexists. split; [|split];
      [|apply (StoreInv_flipped now req s i r); assumption
       |apply (postToggle_existing_store zone now s req day i r);
        assumption].
    reflexivity.
  - eexists. split; [|split];
      [|apply (StoreInv_created day now s req); assumption
       |apply (postToggle_new_store zone now s req day); assumption].
    reflexivity.
Qed.

Lemma updateHabitStats_fields zone now s h u x :
  x ∈ habits (updateHabitStats zone now noFaults s h u) -> habitOf h u x ->
  Habit.current_streak x =
    currentStreak (calculateStreaks zone now (supabaseOf s) h u)
  /\ Habit.longest_streak x =
     longestStreak (calculateStreaks zone now (supabaseOf s) h u)
  /\ Habit.total_completions x = completions s h u
  /\ Habit.updated_at x = Some now.
Proof.
  rewrite updateHabitStats_noFaults. cbn [habits]. intros Hx Hh.
  apply list_elem_of_fmap in Hx as (y & -> & Hy).
  apply habitOf_updateHabit in Hh.
  unfold updateHabit. rewrite bool_decide_eq_true_2 by exact Hh.
  cbn. unfold completions. rewrite length_fmap. repeat split.
Qed.

Lemma updateHabitStats_other zone now f s h u (j : nat) x :
  habits s !! j = Some x -> ~ habitOf h u x ->
  habits (updateHabitStats zone now f s h u) !! j = Some x.
Proof.
  intros Hj Hh. unfold updateHabitStats.
  destruct (habitUpdateFails f); [exact Hj|]. cbn [habits].
  rewrite list_lookup_fmap, Hj. cbn. f_equal.
  unfold updateHabit. rewrite bool_decide_eq_false_2 by exact Hh.
  reflexivity.
Qed.

(** X5. After an accepted toggle (valid date, no store call failing)
    the habit row carries the calculator's result on the progress table
    as it now is, and the number of its completed rows; the rows of the
    other habits are as before. *)
Theorem toggle_refreshes_habit zone now s req day :
  StoreInv s -> accepted s req ->
  toggleDay zone req = Some day ->
  let h := body_habitId req in
  let u := req_userId req in
  let s' := (postToggle zone now noFaults s req).1 in
  Exists (habitOf h u) (habits s')
  /\ (forall x,
        x ∈ habits s' -> habitOf h u x ->
        Habit.current_streak x =
          currentStreak (calculateStreaks zone now (supabaseOf s') h u)
        /\ Habit.longest_streak x =
           longestStreak (calculateStreaks zone now (supabaseOf s') h u)
        /\ Habit.total_completions x = completions s' h u
        /\ Habit.updated_at x = Some now)
  /\ (forall (j : nat) x,
        habits s !! j = Some x -> ~ habitOf h u x ->
        habits s' !! j = Some x).
Proof.
  intros Hinv Hacc Hday h u s'. subst h u s'.
  destruct (postToggle_keeps zone now s req Hinv Hacc) as [_ [_ Hex]].
  destruct (postToggle_accepted_shape zone now s req day Hinv Hacc Hday)
    as (s1 & Hhabits & _ & Heq).
  rewrite Heq in *.
  split; [exact Hex|]. split.
  - intros x Hx Hh.
    assert (forall q : ProgressQuery,
              q = supabaseOf s1 ->
              supabaseOf (updateHabitStats zone now noFaults s1
                            (body_habitId req) (req_userId req)) = q) as Hq.
    { intros q ->. reflexivity. }
    rewrite (Hq _ eq_refl).
    assert (completions
              (updateHabitStats zone now noFaults s1 (body_habitId req)
                 (req_userId req)) (body_habitId req) (req_userId req) =
            completions s1 (body_habitId req) (req_userId req)) as ->
      by reflexivity.
    apply (updateHabitStats_fields zone now s1); assumption.
  - intros j x Hj Hh. apply updateHabitStats_other; [|exact Hh].
    rewrite Hhabits. exact Hj.
Qed.

(** X6. On a server with a constant UTC offset: after an accepted
    toggle (valid date, no store call failing) the stored statistics of
    the habit are ordered:
    0 <= current_streak <= longest_streak <= total_completions. *)
Theorem toggle_stored_fields_ordered tz now s req day x :
  StoreInv s -> accepted s req ->
  toggleDay (fixedZone tz) req = Some day ->
  x ∈ habits (postToggle (fixedZone tz) now noFaults s req).1 ->
  habitOf (body_habitId req) (req_userId req) x ->
  0 <= Habit.current_streak x <= Habit.longest_streak x
  /\ Habit.longest_streak x <= Habit.total_completions x.
Proof.
  intros Hinv Hacc Hday Hx Hh.
  destruct (postToggle_accepted_shape (fixedZone tz) now s req day Hinv Hacc
              Hday) as (s1 & _ & Hinv1 & Heq).
  rewrite Heq in Hx.
  destruct (updateHabitStats_fields (fixedZone tz) now s1 _ _ x Hx Hh)
    as (-> & -> & -> & _).
  rewrite calculateStreaks_store, <- length_completedDatesDesc.
  split.
  - apply streaksOfRows_bounds, selDayGranular_completedDatesDesc, Hinv1.
  - apply streaksOfRows_le_length.
Qed.



(** ** The grace period *)

Lemma ofDateString_le a b : a <= b -> ofDateString a <= ofDateString b.
Proof. unfold ofDateString. pose proof MS_PER_DAY_pos. nia. Qed.

(** The day of a toggle for the current instant is the calculator's
    today or yesterday. *)
Lemma timeClip_Some t x : timeClip t = Some x -> x = t.
Proof. unfold timeClip. case_bool_decide; congruence. Qed.

(** The [dateString] of a valid date is the UTC day of its local
    midnight. *)
Lemma toggleDay_Some zone req day :
  toggleDay zone req = Some day ->
  exists d,
    body_date req = Some d /\ day = isoDateString (setHours0 zone d).
Proof.
  unfold toggleDay, dateStringOf.
  destruct (body_date req) as [d|]; [|discriminate].
  destruct (timeClip _) as [x|] eqn:Hclip; [|discriminate].
  apply timeClip_Some in Hclip. subst x. intros [= <-]. eauto.
Qed.

Lemma toggleDay_now tz now req day :
  body_date req = Some now -> toggleDay (fixedZone tz) req = Some day ->
  0 <= todayDay tz now - day <= 1.
Proof.
  intros Hnow Hday. apply toggleDay_Some in Hday as (d & Hd & ->).
  assert (d = now) as -> by congruence.
  rewrite setHours0_fixed. unfold todayDay, isoDateString.
  change MS_PER_DAY with 86400000.
  Z.div_mod_to_equations. lia.
Qed.

(** When the most recent completed date of the habit is the calculator's
    today or yesterday, the current streak is at least 1. *)
Lemma streaksOfRows_recent tz now (rows : list Progress.t) h u day :
  (exists r, r ∈ rows /\ completedOf h u r /\
             Progress.date r = ofDateString day) ->
  (forall r, r ∈ rows -> completedOf h u r ->
             Progress.date r <= ofDateString day) ->
  0 <= todayDay tz now - day <= 1 ->
  1 <= currentStreak
         (streaksOfRows (fixedZone tz) now (completedDatesDesc rows h u)).
Proof.
  intros (r & Hr & Hc & Hd) Hmax Hday.
  assert (selectDateCompleted r ∈ completedDatesDesc rows h u) as Hin.
  { rewrite completedDatesDesc_perm. apply list_elem_of_fmap_2.
    apply list_elem_of_filter. split; assumption. }
  assert (forall x, x ∈ completedDatesDesc rows h u ->
                    Sel.date x <= ofDateString day) as Hle.
  { intros x Hx. rewrite completedDatesDesc_perm in Hx.
    apply list_elem_of_fmap in Hx as (y & -> & Hy).
    apply list_elem_of_filter in Hy as [Hyc Hy]. cbn. auto. }
  pose proof (completedDatesDesc_sorted rows h u) as Hsorted.
  apply Sorted_StronglySorted in Hsorted; [|apply _].
  destruct (completedDatesDesc rows h u) as [|x rest]; [inversion Hin|].
  apply StronglySorted_cons in Hsorted as [Hhead _].
  assert (Sel.date x = ofDateString day) as Hx.
  { apply Z.le_antisymm; [apply Hle; left|].
    apply elem_of_cons in Hin as [<-|Hin]; [cbn; lia|].
    rewrite Forall_forall in Hhead. specialize (Hhead _ Hin).
    unfold date_desc in Hhead. cbn in Hhead. lia. }
  cbn [streaksOfRows currentStreak currentScan]. rewrite Hx.
  rewrite floorDays_today.
  etransitivity; [|apply currentWalk_ge].
  repeat case_bool_decide; cbn; lia.
Qed.

(** X8. The grace period: when the habit has a completed row on the
    calculator's today or yesterday and none on a later date, its
    current streak is at least 1. *)
Theorem recent_completion_counts tz now s h u day :
  Exists (fun r => completedOf h u r /\ Progress.date r = ofDateString day)
    (progress s) ->
  Forall (fun r => completedOf h u r -> Progress.date r <= ofDateString day)
    (progress s) ->
  0 <= todayDay tz now - day <= 1 ->
  1 <= currentStreak (calculateStreaks (fixedZone tz) now (supabaseOf s) h u).
Proof.
  intros Hex Hmax Hday. rewrite calculateStreaks_store.
  apply (streaksOfRows_recent tz now (progress s) h u day).
  - apply Exists_exists in Hex as (r & Hr & Hc & Hd). eauto.
  - intros r Hr. rewrite Forall_forall in Hmax. auto.
  - exact Hday.
Qed.

Lemma dayGranular_date_le r day :
  dayGranular r -> recordDay r <= day -> Progress.date r <= ofDateString day.
Proof. intros -> Hle. apply ofDateString_le, Hle. Qed.

(** X9. Marking the current day: an accepted toggle for the current
    instant (no store call failing), on a day that was not completed and
    with no completed row of the habit on a later day, leaves the habit
    with a current streak of at least 1, in every zone of constant
    offset; it is the value stored in the habit row. *)
Theorem toggle_today_starts_streak tz now s req day :
  StoreInv s -> accepted s req ->
  body_date req = Some now ->
  toggleDay (fixedZone tz) req = Some day ->
  let h := body_habitId req in
  let u := req_userId req in
  let s' := (postToggle (fixedZone tz) now noFaults s req).1 in
  Forall (fun r => onDay h day r -> Progress.completed r = false)
    (progress s) ->
  Forall (fun r => completedOf h u r -> recordDay r <= day) (progress s) ->
  1 <= currentStreak (calculateStreaks (fixedZone tz) now (supabaseOf s') h u)
  /\ (forall x, x ∈ habits s' -> habitOf h u x ->
                1 <= Habit.current_streak x).
Proof.
  intros Hinv Hacc Hnow Htoggle h u s' Hopen Hlast. subst h u s'.
  pose proof (toggleDay_now tz now req day Hnow Htoggle) as Hday.
  pose proof (inv_day s Hinv) as Hgran.
  rewrite Forall_forall in Hopen, Hlast, Hgran.
  assert (1 <= currentStreak
                 (calculateStreaks (fixedZone tz) now
                    (supabaseOf
                       (postToggle (fixedZone tz) now noFaults s req).1)
                    (body_habitId req) (req_userId req))) as Hcur.
  { rewrite calculateStreaks_store.
    apply (streaksOfRows_recent tz now _ _ _ day);
      [| |exact Hday].
    - destruct (decide (Exists (onDay (body_habitId req) day)
                          (progress s))) as [Hex|Hnone].
      + apply Exists_exists in Hex as (r & Hr & Hon).
        pose proof Hr as Hr'. apply list_elem_of_lookup in Hr' as [i Hi].
        rewrite (postToggle_existing_store (fixedZone tz) now s req day i r)
          by assumption.
        rewrite progress_updateHabitStats; cbn [progress].
        exists (flipped now req r). split; [|split].
        * apply list_elem_of_insert. eapply lookup_lt_Some, Hi.
        * destruct Hacc as [_ Hex].
          destruct (onDay_progressOn s (req_userId req) _ _ r Hinv Hex Hr Hon)
            as (Hu & Hh & _).
          repeat split; [exact Hh|exact Hu|]. cbn.
          rewrite (Hopen r Hr Hon). reflexivity.
        * cbn. rewrite (Hgran r Hr). destruct Hon as [_ ->]. reflexivity.
      + assert (Forall (fun r => ~ onDay (body_habitId req)
                                    day r) (progress s))
          as Hnone'.
        { apply Forall_forall. intros r Hr Hon. apply Hnone.
          apply Exists_exists. eauto. }
        rewrite (postToggle_new_store (fixedZone tz) now s req day)
          by assumption.
        rewrite progress_updateHabitStats; cbn [progress].
        exists (created day now s req). split; [|split].
        * apply elem_of_app. right. left.
        * repeat split.
        * reflexivity.
    - intros r' Hr' Hc'.
      assert ((exists r,
                 r ∈ progress s
                 /\ Progress.habit_id r = Progress.habit_id r'
                 /\ Progress.user_id r = Progress.user_id r'
                 /\ Progress.date r = Progress.date r'
                 /\ (Progress.completed r = true \/
                     onDay (body_habitId req) day r))
              \/ r' = created day now s req) as Horigin.
      { destruct (decide (Exists (onDay (body_habitId req)
                                    day) (progress s)))
          as [Hex|Hnone].
        - apply Exists_exists in Hex as (r & Hr & Hon).
          pose proof Hr as Hr0. apply list_elem_of_lookup in Hr0 as [i Hi].
          rewrite (postToggle_existing_store (fixedZone tz) now s req day i
                     r) in Hr'
            by assumption.
          rewrite progress_updateHabitStats in Hr'; cbn [progress] in Hr'.
          apply list_elem_of_lookup in Hr' as [j Hj].
          apply list_lookup_insert_Some in Hj
            as [(_ & <- & _)|(_ & Hj)].
          + left. exists r. repeat split; auto.
          + left. exists r'. destruct Hc' as (_ & _ & Hc').
            repeat split; auto. eapply list_elem_of_lookup_2, Hj.
        - assert (Forall (fun r => ~ onDay (body_habitId req)
                                      day r) (progress s))
            as Hnone'.
          { apply Forall_forall. intros r Hr Hon. apply Hnone.
            apply Exists_exists. eauto. }
          rewrite (postToggle_new_store (fixedZone tz) now s req day) in Hr'
            by assumption.
          rewrite progress_updateHabitStats in Hr'; cbn [progress] in Hr'.
          apply elem_of_app in Hr' as [Hr'|Hr'].
          + left. exists r'. destruct Hc' as (_ & _ & Hc').
            repeat split; auto.
          + right. apply list_elem_of_singleton in Hr'. exact Hr'. }
      destruct Horigin as [(r & Hr & Hh & Hu & Hd & Hcase)| ->];
        [|cbn; lia].
      rewrite <- Hd. apply dayGranular_date_le; [apply Hgran, Hr|].
      destruct Hcase as [Hc|Hon].
      + apply (Hlast r Hr). destruct Hc' as (Hh' & Hu' & _).
        repeat split; congruence.
      + destruct Hon as [_ ->]. lia. }
  split; [exact Hcur|].
  intros x Hx Hh.
  destruct (postToggle_accepted_shape (fixedZone tz) now s req day Hinv Hacc
              Htoggle) as (s1 & _ & _ & Heq).
  rewrite Heq in Hx, Hcur.
  destruct (updateHabitStats_fields (fixedZone tz) now s1 _ _ x Hx Hh)
    as (-> & _).
  rewrite calculateStreaks_store in Hcur |- *.
  rewrite progress_updateHabitStats in Hcur. exact Hcur.
Qed.

(** ** GET /stats *)

Lemma isoDateString_mono a b : a <= b -> isoDateString a <= isoDateString b.
Proof. intros Hab. apply Z.div_le_mono; [auto|exact Hab]. Qed.

(** [n] days back from the clock reading is [n] calendar days back. *)
Lemma isoDateString_days_back now n :
  isoDateString (now - n * MS_PER_DAY) = isoDateString now - n.
Proof.
  unfold isoDateString.
  replace (now - n * MS_PER_DAY) with (now + (- n) * MS_PER_DAY) by lia.
  rewrite Z.div_add by auto. lia.
Qed.

(** In a zone of constant offset [setDate] moves the instant back by
    whole days. *)
Lemma daysBack_fixed tz now n :
  daysBack (fixedZone tz) now n = timeClip (now - n * MS_PER_DAY).
Proof. unfold daysBack, UTC, LocalTime. cbn. f_equal. lia. Qed.

Lemma timeClip_plainDate t : plainDate t -> timeClip t = Some t.
Proof.
  unfold plainDate, timeClip, ofDateString, MAX_TIME, MS_PER_DAY.
  intros Ht. rewrite bool_decide_eq_true_2 by lia. reflexivity.
Qed.

(** Distinct integers of an interval are no more than the interval has. *)
Lemma NoDup_interval_length (l : list Z) a b :
  NoDup l -> Forall (fun x => a <= x <= b) l ->
  Z.of_nat (length l) <= Z.max 0 (b - a + 1).
Proof.
  intros Hnd Hall.
  assert (l ⊆+ seqZ a (b - a + 1)) as Hsub.
  { apply NoDup_submseteq; [exact Hnd|]. intros x Hx.
    rewrite Forall_forall in Hall. specialize (Hall x Hx).
    apply elem_of_seqZ. lia. }
  apply submseteq_length in Hsub. rewrite length_seqZ in Hsub. lia.
Qed.

(** Under the invariant the rows of one habit fall on distinct days. *)
Lemma NoDup_days_of_habit s h (P : Progress.t -> Prop)
    `{!forall r, Decision (P r)} :
  StoreInv s -> (forall r, P r -> Progress.habit_id r = h) ->
  NoDup (recordDay <$> filter P (progress s)).
Proof.
  intros Hinv HP.
  assert (NoDup (habitDay <$> filter P (progress s))) as Hnd.
  { eapply sublist_NoDup; [apply (inv_one_per_day s Hinv)|].
    apply fmap_sublist, sublist_filter. }
  rewrite (list_fmap_ext habitDay (pair h ∘ recordDay)) in Hnd.
  - rewrite list_fmap_compose in Hnd. eapply NoDup_fmap_1, Hnd.
  - intros i r Hr. apply list_elem_of_lookup_2 in Hr.
    apply list_elem_of_filter in Hr as [Hr _].
    unfold habitDay. cbn. rewrite (HP r Hr). reflexivity.
Qed.

(** X10. Statistics of one habit, on a server with a constant UTC
    offset and with the clock and the start date between 1970-01-01 and
    9999-12-31: under the invariant the number of completed days
    reported for a window of [n] days lies between 0 and [n + 1] (the
    window from [n] days ago to today has [n + 1] calendar days), so
    [missedDays] is never below -1 for [n >= 0]. *)
Theorem stats_single_habit_bound tz now s u h n :
  StoreInv s -> h <> "" ->
  plainDate now -> plainDate (now - n * MS_PER_DAY) ->
  exists c,
    getStats (fixedZone tz) now s u (Some h) (DaysInt n) =
      StatsJson (mkStats c n (n - c))
    /\ 0 <= c <= Z.max 0 (n + 1).
Proof.
  intros Hinv Hh Hnow Hstart. unfold getStats. cbn [parseIntDays].
  rewrite daysBack_fixed, timeClip_plainDate by exact Hstart.
  eexists. split; [reflexivity|]. split; [lia|].
  rewrite isoDateString_days_back.
  set (a := isoDateString now - n). set (b := isoDateString now).
  set (l := filter (statsRow u (Some h) a b) (progress s)).
  pose proof (length_filter (fun p => Progress.completed p = true) l) as Hle.
  assert (Z.of_nat (length (recordDay <$> l)) <= Z.max 0 (b - a + 1)) as Hlen.
  { apply NoDup_interval_length.
    - apply (NoDup_days_of_habit s h); [exact Hinv|].
      intros r (_ & _ & _ & [Hempty|Hr]); [congruence|exact Hr].
    - apply Forall_fmap, Forall_forall. intros r Hr.
      apply list_elem_of_filter in Hr as [(_ & Hlo & Hhi & _) _].
      apply isoDateString_mono in Hlo, Hhi.
      rewrite isoDateString_ofDateString in Hlo, Hhi.
      unfold recordDay. cbn. lia. }
  rewrite length_fmap in Hlen. subst a b. lia.
Qed.







(** X23. A start date outside the range of time values: the handler
    answers 500, whatever the store holds. *)
Theorem stats_start_out_of_range tz now s u habitId n :
  ~ (- MAX_TIME <= now - n * MS_PER_DAY <= MAX_TIME) ->
  getStats (fixedZone tz) now s u habitId (DaysInt n) =
    StatsStatus 500 "Internal server error".
Proof.
  intros Hout. unfold getStats. cbn [parseIntDays].
  rewrite daysBack_fixed. unfold timeClip.
  rewrite bool_decide_eq_false_2 by exact Hout. reflexivity.
Qed.

(** ** DELETE /account *)


(** ** GET /today *)


(** Under the invariant the view reports, for a habit with a record of
    the requesting user on the day, that record. *)
Lemma getToday_record zone now s u hs (j : nat) x r :
  StoreInv s ->
  hs !! j = Some x ->
  r ∈ progress s ->
  Progress.user_id r = u ->
  Progress.habit_id r = Habit.id x ->
  Progress.date r = ofDateString (todayString zone now) ->
  getToday zone now s u hs !! j =
  Some (mkTodayEntry x (Progress.completed r) (Progress.notes r)
          (Some (Progress.id r))).
Proof.
  intros Hinv Hj Hr Hu Hh Hd. unfold getToday, combineToday.
  rewrite list_lookup_fmap, Hj. cbn [fmap option_fmap option_map].
  rewrite list_filter_filter.
  rewrite (filter_key_singleton habitDay _ (progress s) r
             (Habit.id x, todayString zone now)).
  - reflexivity.
  - apply Hinv.
  - intros y (Hyh & _ & Hyd). unfold habitDay, recordDay.
    rewrite Hyh, Hyd, isoDateString_ofDateString. reflexivity.
  - exact Hr.
  - repeat split; assumption.
Qed.

(** X13. [GET /today] under the invariant: a habit of the list with a
    record of the user on today's date is reported with that record's
    flag, notes and id; a habit without such a record is reported as not
    completed, with empty notes and no progress id. *)
Theorem today_reports_the_record zone now s u hs (j : nat) x :
  StoreInv s ->
  hs !! j = Some x ->
  (forall r,
     r ∈ progress s -> Progress.user_id r = u ->
     Progress.habit_id r = Habit.id x ->
     Progress.date r = ofDateString (todayString zone now) ->
     getToday zone now s u hs !! j =
     Some (mkTodayEntry x (Progress.completed r) (Progress.notes r)
             (Some (Progress.id r))))
  /\ (Forall (fun r => ~ (Progress.user_id r = u /\
                         Progress.habit_id r = Habit.id x /\
                         Progress.date r = ofDateString (todayString zone now)))
        (progress s) ->
      getToday zone now s u hs !! j = Some (mkTodayEntry x false "" None)).
Proof.
  intros Hinv Hj. split.
  - intros r Hr Hu Hh Hd. apply getToday_record; assumption.
  - intros Hnone. unfold getToday, combineToday.
    rewrite list_lookup_fmap, Hj. cbn [fmap option_fmap option_map].
    rewrite list_filter_filter, filter_none; [reflexivity|].
    eapply Forall_impl; [exact Hnone|].
    intros r Hr (Hh & Hu & Hd). apply Hr. auto.
Qed.


(** ** Instances on the example store *)

Ltac by_evaluation := apply (bool_decide_unpack _); vm_compute; exact I.

Lemma demoStore_inv : StoreInv demoStore.
Proof. constructor; by_evaluation. Defined.

Lemma demoRequest_accepted day : accepted demoStore (demoRequest day).
Proof. split; [reflexivity|]. by_evaluation. Defined.


Lemma demoRequest_day8 : toggleDay (fixedZone 0) (demoRequest 8) = Some 8.
Proof. vm_compute. reflexivity. Defined.



(** One hour east of UTC, a run of three days ending on day 7, read at
    noon of day 8. *)
Lemma consecutive_run_streaks_witness :
  0 <= MS_PER_HOUR < MS_PER_DAY
  /\ floorDays (setHours0 (fixedZone MS_PER_HOUR)
                 (ofDateString 8 + 12 * MS_PER_HOUR))
       (setHours0 (fixedZone MS_PER_HOUR) (ofDateString 7))
     = localDay (fixedZone MS_PER_HOUR) (ofDateString 8 + 12 * MS_PER_HOUR)
       - 7.
Proof.
  assert (0 <= MS_PER_HOUR < MS_PER_DAY) as Htz by by_evaluation.
  split; [exact Htz|].
  exact (proj1 (proj2 (consecutive_run_streaks MS_PER_HOUR
                         (ofDateString 8 + 12 * MS_PER_HOUR) [] "u" "h" 1
                         2%nat 7)) Htz).
Defined.


(** The habit row of [demoStore] after toggling day 8 at noon of day 8. *)
Lemma toggle_refreshes_habit_witness :
  StoreInv demoStore /\ accepted demoStore (demoRequest 8)
  /\ toggleDay (fixedZone 0) (demoRequest 8) = Some 8
  /\ Exists (habitOf "h" "u")
       (habits (postToggle (fixedZone 0) (ofDateString 8) noFaults demoStore
                  (demoRequest 8)).1).
Proof.
  split; [exact demoStore_inv|]. split; [exact (demoRequest_accepted 8)|].
  split; [exact demoRequest_day8|].
  exact (proj1 (toggle_refreshes_habit (fixedZone 0) (ofDateString 8)
                  demoStore (demoRequest 8) 8 demoStore_inv
                  (demoRequest_accepted 8) demoRequest_day8)).
Defined.

Lemma toggle_stored_fields_ordered_witness :
  let s' :=
    (postToggle (fixedZone 0) (ofDateString 8) noFaults demoStore
       (demoRequest 8)).1 in
  let x := Habit.mk "h" "u" 4 4 4 (Some (ofDateString 8)) in
  StoreInv demoStore /\ accepted demoStore (demoRequest 8)
  /\ toggleDay (fixedZone 0) (demoRequest 8) = Some 8
  /\ x ∈ habits s' /\ habitOf "h" "u" x
  /\ (0 <= Habit.current_streak x <= Habit.longest_streak x
      /\ Habit.longest_streak x <= Habit.total_completions x).
Proof.
  intros s' x.
  assert (x ∈ habits s') as Hx by (vm_compute; left).
  assert (habitOf "h" "u" x) as Hh by (split; reflexivity).
  split; [exact demoStore_inv|]. split; [exact (demoRequest_accepted 8)|].
  split; [exact demoRequest_day8|].
  split; [exact Hx|]. split; [exact Hh|].
  exact (toggle_stored_fields_ordered 0 (ofDateString 8) demoStore
           (demoRequest 8) 8 x demoStore_inv (demoRequest_accepted 8)
           demoRequest_day8 Hx Hh).
Defined.


(** [demoStore] read on day 8: the most recent completion is yesterday. *)
Lemma recent_completion_counts_witness :
  Exists (fun r => completedOf "h" "u" r /\
                   Progress.date r = ofDateString 7) (progress demoStore)
  /\ Forall (fun r => completedOf "h" "u" r ->
                      Progress.date r <= ofDateString 7) (progress demoStore)
  /\ 0 <= todayDay 0 (ofDateString 8) - 7 <= 1
  /\ 1 <= currentStreak
            (calculateStreaks (fixedZone 0) (ofDateString 8)
               (supabaseOf demoStore) "h" "u").
Proof.
  assert (Exists (fun r => completedOf "h" "u" r /\
                           Progress.date r = ofDateString 7)
            (progress demoStore)) as Hex by by_evaluation.
  assert (Forall (fun r => completedOf "h" "u" r ->
                           Progress.date r <= ofDateString 7)
            (progress demoStore)) as Hmax by by_evaluation.
  assert (0 <= todayDay 0 (ofDateString 8) - 7 <= 1) as Hday
    by by_evaluation.
  split; [exact Hex|]. split; [exact Hmax|]. split; [exact Hday|].
  exact (recent_completion_counts 0 (ofDateString 8) demoStore "h" "u" 7
           Hex Hmax Hday).
Defined.

(** Marking day 8 of [demoStore] at 09:00 of day 8. *)
Lemma toggle_today_starts_streak_witness :
  let now := ofDateString 8 + 9 * 3600000 in
  let req := demoRequest 8 in
  StoreInv demoStore /\ accepted demoStore req /\ body_date req = Some now
  /\ toggleDay (fixedZone 0) req = Some 8
  /\ Forall (fun r => onDay "h" 8 r -> Progress.completed r = false)
       (progress demoStore)
  /\ Forall (fun r => completedOf "h" "u" r -> recordDay r <= 8)
       (progress demoStore)
  /\ 1 <= currentStreak
            (calculateStreaks (fixedZone 0) now
               (supabaseOf
                  (postToggle (fixedZone 0) now noFaults demoStore req).1)
               "h" "u").
Proof.
  intros now req.
  assert (Forall (fun r => onDay "h" 8 r -> Progress.completed r = false)
            (progress demoStore)) as Hopen by by_evaluation.
  assert (Forall (fun r => completedOf "h" "u" r -> recordDay r <= 8)
            (progress demoStore)) as Hlast by by_evaluation.
  split; [exact demoStore_inv|]. split; [exact (demoRequest_accepted 8)|].
  split; [reflexivity|]. split; [exact demoRequest_day8|].
  split; [exact Hopen|]. split; [exact Hlast|].
  exact (proj1 (toggle_today_starts_streak 0 now demoStore req 8
                  demoStore_inv (demoRequest_accepted 8) eq_refl
                  demoRequest_day8 Hopen Hlast)).
Defined.

(** The statistics of two days of [demoStore], asked on 2024-03-12. *)
Lemma stats_single_habit_bound_witness :
  let now := ofDateString day_2024_03_12 in
  StoreInv demoStore /\ "h" <> ""
  /\ plainDate now /\ plainDate (now - 2 * MS_PER_DAY)
  /\ exists c,
       getStats (fixedZone 0) now demoStore "u" (Some "h") (DaysInt 2) =
       StatsJson (mkStats c 2 (2 - c))
       /\ 0 <= c <= Z.max 0 (2 + 1).
Proof.
  intros now.
  assert ("h" <> "") as Hh by discriminate.
  assert (plainDate now) as Hnow by by_evaluation.
  assert (plainDate (now - 2 * MS_PER_DAY)) as Hstart by by_evaluation.
  split; [exact demoStore_inv|]. split; [exact Hh|].
  split; [exact Hnow|]. split; [exact Hstart|].
  exact (stats_single_habit_bound 0 now demoStore "u" "h" 2
           demoStore_inv Hh Hnow Hstart).
Defined.


(** [days=200000000] asked on 2024-03-12: the start date is more than
    100 000 000 days before 1970-01-01. *)
Lemma stats_start_out_of_range_witness :
  let now := ofDateString day_2024_03_12 in
  ~ (- MAX_TIME <= now - 200000000 * MS_PER_DAY <= MAX_TIME)
  /\ getStats (fixedZone 0) now demoStore "u" None (DaysInt 200000000) =
     StatsStatus 500 "Internal server error".
Proof.
  intros now.
  assert (~ (- MAX_TIME <= now - 200000000 * MS_PER_DAY <= MAX_TIME))
    as Hout by by_evaluation.
  split; [exact Hout|].
  exact (stats_start_out_of_range 0 now demoStore "u" None 200000000 Hout).
Defined.


(** The today view of [demoStore] on day 7 for its habit. *)
Lemma today_reports_the_record_witness :
  let x := Habit.mk "h" "u" 0 0 0 None in
  StoreInv demoStore /\ [x] !! 0%nat = Some x
  /\ getToday (fixedZone 0) (ofDateString 7) demoStore "u" [x] !! 0%nat =
     Some (mkTodayEntry x true "" (Some 2)).
Proof.
  intros x.
  split; [exact demoStore_inv|]. split; [reflexivity|].
  refine (proj1 (today_reports_the_record (fixedZone 0) (ofDateString 7)
                   demoStore "u" [x] 0%nat x demoStore_inv eq_refl)
            (completedRow 2 "u" "h" 7) _ eq_refl eq_refl _).
  - vm_compute. right. left.
  - vm_compute. reflexivity.
Defined.


Lemma calculateStreaks_atMidnight_witness :
  Forall dayGranular threeDays
  /\ calculateStreaks (fixedZone 3600000) (ofDateString 7)
       (supabaseOf (mkStore [] threeDays)) "h" "u" =
     calculateStreaks (fixedZone 3600000) (ofDateString 7)
       (supabaseOf
          (mkStore [] (atMidnight (fixedZone 3600000) <$> threeDays)))
       "h" "u".
Proof.
  assert (Forall dayGranular threeDays) as Hrows by by_evaluation.
  split; [exact Hrows|].
  exact (calculateStreaks_atMidnight 3600000 (ofDateString 7) [] threeDays
           "h" "u" Hrows).
Defined.

(** ** What does not matter, what is not touched *)

Lemma setHours0_same_day zone now1 now2 :
  localDay zone now1 = localDay zone now2 ->
  setHours0 zone now1 = setHours0 zone now2.
Proof. unfold localDay, setHours0. intros ->. reflexivity. Qed.

(** X15. Two clock readings on the same local calendar day give the same
    streaks, for every client: within a day a recomputation changes
    nothing. *)
Theorem same_day_same_streaks zone now1 now2 (q : ProgressQuery) h u :
  localDay zone now1 = localDay zone now2 ->
  calculateStreaks zone now1 q h u = calculateStreaks zone now2 q h u.
Proof.
  intros Hday. rewrite !calculateStreaks_eq.
  destruct (q h u) as [[[[|r rows]|] [e|]]|]; try reflexivity.
  cbn [Pg.error Pg.data streaksOfRows].
  rewrite (setHours0_same_day zone now1 now2 Hday). reflexivity.
Qed.

Lemma same_day_same_streaks_witness :
  localDay (fixedZone 0) (ofDateString 7) =
  localDay (fixedZone 0) (ofDateString 7 + 3600000)
  /\ calculateStreaks (fixedZone 0) (ofDateString 7) (supabaseOf demoStore)
       "h" "u" =
     calculateStreaks (fixedZone 0) (ofDateString 7 + 3600000)
       (supabaseOf demoStore) "h" "u".
Proof.
  assert (localDay (fixedZone 0) (ofDateString 7) =
          localDay (fixedZone 0) (ofDateString 7 + 3600000))
    as Hday by reflexivity.
  split; [exact Hday|].
  exact (same_day_same_streaks (fixedZone 0) (ofDateString 7)
           (ofDateString 7 + 3600000)
           (supabaseOf demoStore) "h" "u" Hday).
Defined.

(** X16. Only the completed rows of the habit and user count: rows of
    other habits, of other users, and rows that are not completed never
    change the streaks, and neither does the habits table. *)
Theorem streaks_ignore_other_rows zone now hs hs'
    (rows others : list Progress.t) h u :
  calculateStreaks zone now
    (supabaseOf
       (mkStore hs (rows ++ filter (fun r => ~ completedOf h u r) others)))
    h u
  = calculateStreaks zone now (supabaseOf (mkStore hs' rows)) h u.
Proof.
  rewrite !calculateStreaks_store. cbn [progress]. f_equal.
  unfold completedDatesDesc. rewrite filter_app.
  rewrite (filter_none (completedOf h u)
             (filter (fun r => ~ completedOf h u r) others)).
  - rewrite app_nil_r. reflexivity.
  - apply Forall_forall. intros r Hr.
    apply list_elem_of_filter in Hr as [Hr _]. exact Hr.
Qed.




(** ** Date-only requests and the time zone *)

(** The [dateString] of a date-only request and the [daysDiff] of the
    row it stores, by time zone. *)
Lemma date_only_toggle_age_cases tz now req d day :
  body_date req = Some (ofDateString d) ->
  toggleDay (fixedZone tz) req = Some day ->
  let age :=
    floorDays (setHours0 (fixedZone tz) now)
      (setHours0 (fixedZone tz) (ofDateString day)) in
  (tz = 0 -> day = d /\ age = localDay (fixedZone tz) now - d)
  /\ (0 < tz < MS_PER_DAY ->
      day = d - 1 /\ age = localDay (fixedZone tz) now - d + 1)
  /\ (- MS_PER_DAY < tz < 0 ->
      day = d - 1 /\ age = localDay (fixedZone tz) now - d + 2).
Proof.
  intros Hdate Hday age. subst age. rewrite floorDays_today.
  apply toggleDay_Some in Hday as (d' & Hd' & ->).
  assert (d' = ofDateString d) as -> by congruence.
  rewrite setHours0_fixed, localDay_fixed.
  unfold todayDay, isoDateString.
  rewrite local_day_ofDateString.
  change MS_PER_DAY with 86400000.
  repeat split; intros; Z.div_mod_to_equations; lia.
Qed.

(** X20. A toggle for a calendar date [d] (a date-only string) stores
    the day [d] on a server in UTC and the day [d - 1] on a server whose
    offset is not zero (less than a day east or west); the [daysDiff]
    the calculator then computes for the stored row is the distance
    from the local day of the clock to [d] in UTC, one more east of UTC,
    and two more west of UTC. *)
Theorem date_only_toggle_age tz now req d day :
  body_date req = Some (ofDateString d) ->
  toggleDay (fixedZone tz) req = Some day ->
  let age :=
    floorDays (setHours0 (fixedZone tz) now)
      (setHours0 (fixedZone tz) (ofDateString day)) in
  (tz = 0 -> day = d /\ age = localDay (fixedZone tz) now - d)
  /\ (0 < tz < MS_PER_DAY ->
      day = d - 1 /\ age = localDay (fixedZone tz) now - d + 1)
  /\ (- MS_PER_DAY < tz < 0 ->
      day = d - 1 /\ age = localDay (fixedZone tz) now - d + 2).
Proof. apply date_only_toggle_age_cases. Qed.

Lemma date_only_toggle_age_witness :
  let req := mkToggleRequest "u" [] "h" (Some (ofDateString 8)) None in
  let tz := - (5 * 3600000) in
  let now := ofDateString 8 + 15 * 3600000 in
  body_date req = Some (ofDateString 8)
  /\ toggleDay (fixedZone tz) req = Some 7
  /\ - MS_PER_DAY < tz < 0
  /\ floorDays (setHours0 (fixedZone tz) now)
       (setHours0 (fixedZone tz) (ofDateString 7)) = 2.
Proof.
  intros req tz now.
  assert (- MS_PER_DAY < tz < 0) as Hwest by by_evaluation.
  assert (toggleDay (fixedZone tz) req = Some 7) as Hday
    by (vm_compute; reflexivity).
  split; [reflexivity|]. split; [exact Hday|]. split; [exact Hwest|].
  destruct (date_only_toggle_age tz now req 8 7 eq_refl Hday)
    as (_ & _ & Hw).
  destruct (Hw Hwest) as [_ Hage].
  rewrite Hage. reflexivity.
Defined.

Lemma completedDatesDesc_first (rows : list Progress.t) h u r :
  Forall (fun x => Progress.habit_id x <> h) rows ->
  completedOf h u r ->
  completedDatesDesc (rows ++ [r]) h u = [selectDateCompleted r].
Proof.
  intros Hnone Hr. unfold completedDatesDesc.
  rewrite filter_app, filter_none.
  - rewrite filter_cons_True by exact Hr. reflexivity.
  - eapply Forall_impl; [exact Hnone|]. intros x Hx (Hh & _). contradiction.
Qed.

(** X21. The first completion of a habit, requested for the local
    calendar date of the clock as a date-only string (no store call
    failing): the toggle leaves the streaks (1, 1) on a server in UTC or
    east of UTC, and (0, 1) on a server west of UTC, where the stored
    row counts as two days old. *)
Theorem first_completion_streaks tz now s req day :
  StoreInv s -> accepted s req ->
  body_date req = Some (ofDateString (localDay (fixedZone tz) now)) ->
  toggleDay (fixedZone tz) req = Some day ->
  Forall (fun r => Progress.habit_id r <> body_habitId req) (progress s) ->
  - MS_PER_DAY < tz < MS_PER_DAY ->
  calculateStreaks (fixedZone tz) now
    (supabaseOf (postToggle (fixedZone tz) now noFaults s req).1)
    (body_habitId req) (req_userId req)
  = mkStreaks (if bool_decide (tz < 0) then 0 else 1) 1.
Proof.
  intros Hinv Hacc Hdate Hday Hnone Htz.
  assert (Forall (fun r => ~ onDay (body_habitId req) day r) (progress s))
    as Hnone'.
  { eapply Forall_impl; [exact Hnone|]. intros r Hr [Hh _]. contradiction. }
  rewrite calculateStreaks_store.
  rewrite (postToggle_new_store (fixedZone tz) now s req day) by assumption.
  rewrite progress_updateHabitStats. cbn [progress].
  rewrite completedDatesDesc_first by first [exact Hnone | repeat split].
  cbn [streaksOfRows currentScan currentWalk longestScan longestWalk
       selectDateCompleted created Progress.date Sel.date].
  destruct (date_only_toggle_age_cases tz now req
              (localDay (fixedZone tz) now) day Hdate Hday)
    as (Hutc & Heast & Hwest).
  f_equal.
  destruct (Z.lt_trichotomy tz 0) as [Hlt|[Heq|Hgt]].
  - rewrite (proj2 (Hwest ltac:(lia))).
    repeat case_bool_decide; cbn; try reflexivity; lia.
  - rewrite (proj2 (Hutc Heq)).
    repeat case_bool_decide; cbn; try reflexivity; lia.
  - rewrite (proj2 (Heast ltac:(lia))).
    repeat case_bool_decide; cbn; try reflexivity; lia.
Qed.

(** A first completion on a server five hours west of UTC, at 10:00
    local time of day 8, requested for day 8. *)
Lemma first_completion_streaks_witness :
  let s := mkStore [Habit.mk "h" "u" 0 0 0 None] [] in
  let req := mkToggleRequest "u" [] "h" (Some (ofDateString 8)) None in
  let tz := - (5 * 3600000) in
  let now := ofDateString 8 + 15 * 3600000 in
  StoreInv s /\ accepted s req
  /\ body_date req = Some (ofDateString (localDay (fixedZone tz) now))
  /\ toggleDay (fixedZone tz) req = Some 7
  /\ Forall (fun r => Progress.habit_id r <> body_habitId req) (progress s)
  /\ - MS_PER_DAY < tz < MS_PER_DAY
  /\ calculateStreaks (fixedZone tz) now
       (supabaseOf (postToggle (fixedZone tz) now noFaults s req).1) "h" "u"
     = mkStreaks 0 1.
Proof.
  intros s req tz now.
  assert (StoreInv s) as Hinv by (constructor; by_evaluation).
  assert (accepted s req) as Hacc by (split; [reflexivity|by_evaluation]).
  assert (body_date req = Some (ofDateString (localDay (fixedZone tz) now)))
    as Hdate by reflexivity.
  assert (toggleDay (fixedZone tz) req = Some 7) as Hday
    by (vm_compute; reflexivity).
  assert (Forall (fun r => Progress.habit_id r <> body_habitId req)
            (progress s)) as Hnone by constructor.
  assert (- MS_PER_DAY < tz < MS_PER_DAY) as Htz by by_evaluation.
  split; [exact Hinv|]. split; [exact Hacc|]. split; [exact Hdate|].
  split; [exact Hday|]. split; [exact Hnone|]. split; [exact Htz|].
  exact (first_completion_streaks tz now s req 7 Hinv Hacc Hdate Hday Hnone
           Htz).
Defined.

(** ** Further instances *)

(** X24. A request that passes validation and names a habit of its user,
    but whose date does not parse to a valid time value (or whose local
    midnight leaves the range of time values), is answered 500 and
    writes nothing. *)
Theorem toggle_invalid_date_writes_nothing zone now s req :
  StoreInv s -> accepted s req -> toggleDay zone req = None ->
  postToggle zone now noFaults s req =
    (s, Status 500 "Internal server error").
Proof. apply postToggle_invalid_date. Qed.

Lemma toggle_invalid_date_writes_nothing_witness :
  let req := mkToggleRequest "u" [] "h" None None in
  StoreInv demoStore /\ accepted demoStore req
  /\ toggleDay (fixedZone 0) req = None
  /\ postToggle (fixedZone 0) 100 noFaults demoStore req =
     (demoStore, Status 500 "Internal server error").
Proof.
  intros req.
  assert (accepted demoStore req) as Hacc
    by (split; [reflexivity|by_evaluation]).
  split; [exact demoStore_inv|]. split; [exact Hacc|].
  split; [reflexivity|].
  exact (toggle_invalid_date_writes_nothing (fixedZone 0) 100 demoStore req
           demoStore_inv Hacc eq_refl).
Defined.

(** Five hours west of UTC, at 10:00 local time of 2024-01-10: three
    days up to the local date of the clock. *)
Lemma consecutive_histories_constant_offset_witness :
  let tz := - (5 * MS_PER_HOUR) in
  let now := ofDateString day_2024_01_10 + 15 * MS_PER_HOUR in
  - MS_PER_DAY < tz < MS_PER_DAY
  /\ calculateStreaks (fixedZone tz) now
       (supabaseOf
          (mkStore []
             (completedOn "u" "h" 1
                [localDay (fixedZone tz) now - 2;
                 localDay (fixedZone tz) now - 1;
                 localDay (fixedZone tz) now]))) "h" "u"
     = mkStreaks 3 3.
Proof.
  intros tz now.
  assert (- MS_PER_DAY < tz < MS_PER_DAY) as Htz by by_evaluation.
  split; [exact Htz|].
  exact (proj1 (consecutive_histories_constant_offset tz now [] "u" "h"
                  Htz)).
Defined.

(** The bounds on [demoStore], read at noon of day 8 one hour east of
    UTC. *)
Lemma StoreInv_streak_bounds_witness :
  let st :=
    calculateStreaks (fixedZone MS_PER_HOUR)
      (ofDateString 8 + 12 * MS_PER_HOUR) (supabaseOf demoStore) "h" "u" in
  StoreInv demoStore /\ 0 <= currentStreak st <= longestStreak st.
Proof.
  intros st.
  split; [exact demoStore_inv|].
  exact (StoreInv_streak_bounds MS_PER_HOUR
           (ofDateString 8 + 12 * MS_PER_HOUR) demoStore "h" "u"
           demoStore_inv).
Defined.
